(** * pytac: the value-dispatch and aggregation layer

    A shallow embedding of [pytac/lattice.py], [pytac/epics.py] and
    [pytac/model.py], and the properties of the lattice, the EPICS devices
    and the PV enabler that the specification states about them.

    Python objects are records, [None]-able arguments are [option]s, dicts
    are [gmap]s, sets are [gset]s.  A method that can raise returns a
    [result]; a method that talks to the control system or prints is a
    computation in the monad [M], which threads the outside world, the log
    of the collaborator calls issued so far and the lines printed so far,
    and keeps them when an exception is raised, as Python does.  An
    exception has its class and what it says; what the errors of the
    builtins say, and what [float] makes of a string that is not a plain
    literal, is left to the interpreter. *)

From Stdlib Require Import ZArith String Ascii List Bool Lia.
From Stdlib Require Import Floats.SpecFloat.
From stdpp Require Import base tactics option list gmap strings pretty.

Local Open Scope string_scope.
Local Open Scope list_scope.
Local Open Scope Z_scope.

(** ** Exceptions and results *)

(** The exception classes the three modules raise or catch.  The four
    pytac classes are siblings (none is caught by another's handler), as
    the specification lists them; [OtherError] stands for any other class
    a collaborator may raise. *)
Inductive ExcKind : Type :=
  | ValueError
  | IndexError
  | KeyError
  | TypeError
  | OverflowError
  | DataSourceException
  | FieldException
  | HandleException
  | UnitsException
  | OtherError (class_name : string).

#[global] Instance ExcKind_eq_dec : EqDecision ExcKind.
Proof. solve_decision. Defined.

(** What an exception says.  A text one of the three modules gives is
    spelled out.  The text of an error a builtin raises is the
    interpreter's own and changes from one version to the next; it is
    recorded as the operation that failed, on what. *)
Inductive Builtin : Type :=
  | MissingKey (k : string)
  | IndexOutOfRange (n : Z)
  | FloatOfNone
  | FloatOfStr (s : string)
  | FloatOfInt (n : Z)
  | IntOfInfinity
  | IntOfNaN
  | AddOperands (left right : string).

#[global] Instance Builtin_eq_dec : EqDecision Builtin.
Proof. solve_decision. Defined.

Inductive Message : Type :=
  | Text (s : string)
  | OfBuiltin (b : Builtin).

Coercion Text : string >-> Message.

#[global] Instance Message_eq_dec : EqDecision Message.
Proof. solve_decision. Defined.

Record Exc : Type := mkExc { exc_kind : ExcKind; exc_msg : Message }.

Inductive result (A : Type) : Type :=
  | Ok (a : A)
  | Raise (e : Exc).
Arguments Ok {A} a.
Arguments Raise {A} e.

#[global] Instance Exc_eq_dec : EqDecision Exc.
Proof. solve_decision. Defined.

#[global] Instance result_eq_dec `{EqDecision A} : EqDecision (result A).
Proof. solve_decision. Defined.

Definition raise_ {A} (k : ExcKind) (msg : Message) : result A :=
  Raise (mkExc k msg).

Definition rbind {A B} (r : result A) (k : A → result B) : result B :=
  match r with
  | Ok a => k a
  | Raise e => Raise e
  end.

Definition is_Ok {A} (r : result A) : bool :=
  match r with Ok _ => true | Raise _ => false end.

Definition to_option {A} (r : result A) : option A :=
  match r with Ok a => Some a | Raise _ => None end.

Notation "'let?' x := r 'in' k" := (rbind r (λ x, k))
  (at level 10, x name, r at level 100, k at level 200, only parsing).

(** ** Python values and the builtins [float], [int] and [str] *)

(** A channel value or an enabled-value: a string, an integer, a binary64
    float, or [None]. *)
Inductive PyVal : Type :=
  | PNone
  | PStr (s : string)
  | PInt (n : Z)
  | PFloat (f : spec_float).

Definition is_digit (c : ascii) : bool :=
  let n := nat_of_ascii c in (48 <=? n)%nat && (n <=? 57)%nat.

Definition digit_value (c : ascii) : Z := Z.of_nat (nat_of_ascii c) - 48.

(** The white space [float] skips around a literal: tab, line feed,
    vertical tab, form feed, carriage return and the space. *)
Definition is_space (c : ascii) : bool :=
  let n := nat_of_ascii c in
  ((9 <=? n)%nat && (n <=? 13)%nat) || (n =? 32)%nat.

Definition lower (c : ascii) : ascii :=
  let n := nat_of_ascii c in
  if (65 <=? n)%nat && (n <=? 90)%nat then ascii_of_nat (n + 32) else c.

Fixpoint lstrip (l : list ascii) : list ascii :=
  match l with
  | c :: l' => if is_space c then lstrip l' else l
  | [] => []
  end.

Definition strip (l : list ascii) : list ascii :=
  rev (lstrip (rev (lstrip l))).

(** A run of decimal digits, continuing the number [acc].  Returns the
    number, how many digits were read, and the rest of the input. *)
Fixpoint take_digits (l : list ascii) (acc : Z) (n : Z)
  : Z * Z * list ascii :=
  match l with
  | c :: l' =>
      if is_digit c then take_digits l' (10 * acc + digit_value c) (n + 1)
      else (acc, n, l)
  | [] => (acc, n, l)
  end.

Definition take_sign (l : list ascii) : bool * list ascii :=
  match l with
  | c :: l' =>
      if Ascii.eqb c "-" then (true, l')
      else if Ascii.eqb c "+" then (false, l')
      else (false, l)
  | [] => (false, l)
  end.

(** The binary64 number nearest to [m * 10 ^ e10] (ties to even), for
    [0 <= m]. *)
Definition float_of_decimal (neg : bool) (m e10 : Z) : spec_float :=
  if m =? 0 then S754_zero neg
  else if 0 <=? e10 then
    binary_normalize 53 1024 (if neg then - (m * 10 ^ e10) else m * 10 ^ e10) 0 neg
  else
    let '(q, e, l) := SFdiv_core_binary 53 1024 m 0 (10 ^ (- e10)) 0 in
    binary_round_aux 53 1024 neg q e l.

(** The number a plain literal denotes: surrounding white space, a sign,
    then [inf], [infinity], [nan] (in any case) or decimal digits with an
    optional fraction and exponent, all in ASCII and, as the interpreters
    bound the digits they read, in at most a thousand characters.  Every
    interpreter reads these alike, rounding to the nearest binary64
    number. *)
Definition plain_literal (s : string) : option spec_float :=
  let '(neg, body) := take_sign (strip (list_ascii_of_string s)) in
  let word := string_of_list_ascii (map lower body) in
  if (1000 <? String.length s)%nat then None
  else if String.eqb word "inf" || String.eqb word "infinity" then
    Some (S754_infinity neg)
  else if String.eqb word "nan" then Some S754_nan
  else
    let '(m1, n1, rest1) := take_digits body 0 0 in
    let '(m2, n2, rest2) :=
      match rest1 with
      | c :: r => if Ascii.eqb c "." then take_digits r m1 0 else (m1, 0, rest1)
      | [] => (m1, 0, rest1)
      end in
    if n1 + n2 =? 0 then None
    else
      match rest2 with
      | [] => Some (float_of_decimal neg m2 (- n2))
      | c :: r =>
          if Ascii.eqb (lower c) "e" then
            let '(eneg, r') := take_sign r in
            let '(ex, nx, rest3) := take_digits r' 0 0 in
            match rest3 with
            | [] =>
                if nx =? 0 then None
                else Some (float_of_decimal neg m2 ((if eneg then - ex else ex) - n2))
            | _ :: _ => None
            end
          else None
      end.

(** [float(s)] for a string.  What it does with a string that is no
    plain literal (digits of another script, an underscore between digits,
    other white space), the error it raises included, depends on the
    interpreter, so it is a parameter, which reads the plain literals as
    every interpreter does. *)
Class Interpreter : Type := {
  float_of_str : string → result spec_float;
  float_of_str_plain (s : string) (f : spec_float) :
    plain_literal s = Some f → float_of_str s = Ok f
}.

(** [float(n)] for an integer: the nearest binary64 number, ties to
    even. *)
Definition float_of_int (n : Z) : result spec_float :=
  match binary_normalize 53 1024 n 0 false with
  | S754_infinity _ => raise_ OverflowError (OfBuiltin (FloatOfInt n))
  | f => Ok f
  end.

(** [float(v)] *)
Definition py_float `{Interpreter} (v : PyVal) : result spec_float :=
  match v with
  | PFloat f => Ok f
  | PInt n => float_of_int n
  | PStr s => float_of_str s
  | PNone => raise_ TypeError (OfBuiltin FloatOfNone)
  end.

(** [int(f)] for a float: truncation towards zero. *)
Definition py_int (f : spec_float) : result Z :=
  match f with
  | S754_zero _ => Ok 0
  | S754_infinity _ => raise_ OverflowError (OfBuiltin IntOfInfinity)
  | S754_nan => raise_ ValueError (OfBuiltin IntOfNaN)
  | S754_finite s m e =>
      let a := if 0 <=? e then Z.pos m * 2 ^ e else Z.pos m / 2 ^ (- e) in
      Ok (if s then - a else a)
  end.

(** [str(n)] for an integer. *)
Definition py_str (n : Z) : string := pretty n.

(** [str(int(float(v)))] *)
Definition str_int_float `{Interpreter} (v : PyVal) : result string :=
  let? f := py_float v in
  let? n := py_int f in
  Ok (py_str n).

(** [bool(x)] for a value that is [None] or a string. *)
Definition truthy (x : option string) : bool :=
  match x with
  | Some s => negb (String.eqb s "")
  | None => false
  end.

(** The string a value is; read only where the value has been tested to be
    true, hence a string. *)
Definition the (x : option string) : string := default "" x.

(** ["{0}".format(x)] for a value that is [None] or a string, and for one
    that is [None] or an integer. *)
Definition format_str (x : option string) : string :=
  match x with Some s => s | None => "None" end.

Definition format_int (x : option Z) : string :=
  match x with Some n => py_str n | None => "None" end.

(** [d[k]] on a dict: [KeyError] when the key is absent. *)
Definition getitem {V} (d : gmap string V) (k : string) : result V :=
  match d !! k with
  | Some v => Ok v
  | None => raise_ KeyError (OfBuiltin (MissingKey k))
  end.

(** [try: r except ...: ...] on results: [handler e] is the body of the
    first [except] clause that matches [e], if any. *)
Definition try_except {A} (r : result A) (handler : Exc → option (result A))
  : result A :=
  match r with
  | Ok a => Ok a
  | Raise e => match handler e with Some h => h | None => Raise e end
  end.

(** ** The constants of the [pytac] package

    [pytac/__init__.py] defines the handles, unit systems and data-source
    types as strings; the sources embedded here only compare and print
    them, so they are parameters. *)
Class Constants : Type := {
  RB : string;
  SP : string;
  ENG : string;
  PHYS : string;
  LIVE : string;
  SIM : string;
  DEFAULT : string
}.

(** ** The data model *)

(** [epics.PvEnabler] *)
Module PvEnabler.
Record t : Type := mk { _pv : string; _enabled_value : string }.
End PvEnabler.

(** The [enabled] argument of a device: a boolean or a [PvEnabler]. *)
Inductive Enabled : Type :=
  | EnabledBool (b : bool)
  | EnabledPv (p : PvEnabler.t).

(** [epics.EpicsDevice]; the control system [_cs] it refers to is shared
    and lives in the world. *)
Module EpicsDevice.
Record t : Type := mk {
  name : string;
  rb_pv : option string;
  sp_pv : option string;
  _enabled : Enabled
}.
End EpicsDevice.

(** [model.DeviceModel] *)
Module DeviceModel.
Record t : Type := mk {
  _devices : gmap string EpicsDevice.t;
  units : string
}.
End DeviceModel.

(** Modelled from the spec: the fields of [DataSourceManager]
    ([pytac/data_source.py] is not among the sources) that the lattice and
    the EPICS element read and assign: the data sources by type, and the
    two defaults.  The one data source the sources reach into is the live
    one, through [get_device]; it is taken to be a [model.DeviceModel], the
    class of the sources that holds devices by field. *)
Module DataSourceManager.
Record t : Type := mk {
  _data_sources : gmap string DeviceModel.t;
  default_units : string;
  default_data_source : string
}.
End DataSourceManager.

(** Modelled from the spec: the fields of [Element] ([pytac/element.py] is
    not among the sources) that the lattice reads: the set of families, the
    cell, and the element's own manager. *)
Module Element.
Record t : Type := mk {
  name : string;
  families : gset string;
  cell : Z;
  _data_source_manager : DataSourceManager.t
}.
End Element.

(** [lattice.Lattice]: [_lattice] is the list of the elements, in the order
    of the ring. *)
Module Lattice.
Record t : Type := mk {
  name : string;
  _lattice : list Element.t;
  _data_source_manager : DataSourceManager.t
}.
End Lattice.

(** ** The world, the calls issued, and the monad of the methods *)

(** The calls the embedded methods issue to their collaborators: the
    control system's [get] and [put], on one name or on a list of names,
    and an element's [set_value] and [get_value].  An omitted keyword
    argument is [None]. *)
Inductive Call : Type :=
  | CsGet (pv : string)
  | CsGetMany (pvs : list string)
  | CsPut (pv : string) (value : PyVal)
  | CsPutMany (pvs : list string) (values : list PyVal)
  | ElementSetValue (e : Element.t) (field : string) (value : PyVal)
      (handle : option string) (units data_source : option string)
  | ElementGetValue (e : Element.t) (field : string) (handle : string)
  | ManagerGetValue (field handle units data_source : string)
  | ManagerSetValue (field : string) (value : PyVal)
      (handle units data_source : string).

Record State (W : Type) : Type := mkState {
  world : W;
  calls : list Call;
  stdout : list string
}.
Arguments mkState {W} world calls stdout.
Arguments world {W} s.
Arguments calls {W} s.
Arguments stdout {W} s.

Definition M (W A : Type) : Type := State W → result A * State W.

Definition ret {W A} (a : A) : M W A := λ st, (Ok a, st).

Definition raise {W A} (k : ExcKind) (msg : Message) : M W A :=
  λ st, (raise_ k msg, st).

Definition bind {W A B} (m : M W A) (k : A → M W B) : M W B :=
  λ st, match m st with
        | (Ok a, st') => k a st'
        | (Raise e, st') => (Raise e, st')
        end.

Definition lift {W A} (r : result A) : M W A := λ st, (r, st).

Notation "'do' x <- m ; k" := (bind m (λ x, k))
  (at level 10, x name, m at level 100, k at level 200, only parsing).

(** A call to a collaborator: logged, then run on the world. *)
Definition call {W A} (c : Call) (f : W → result A * W) : M W A :=
  λ st, let '(r, w) := f (world st) in
        (r, mkState w (calls st ++ [c]) (stdout st)).

(** [print(line)] *)
Definition print {W} (line : string) : M W unit :=
  λ st, (Ok tt, mkState (world st) (calls st) (stdout st ++ [line])).

(** [try: m except ...: ...]: what [m] did before it raised stays done. *)
Definition try_exceptM {W A} (m : M W A) (handler : Exc → option (M W A))
  : M W A :=
  λ st, match m st with
        | (Ok a, st') => (Ok a, st')
        | (Raise e, st') =>
            match handler e with
            | Some h => h st'
            | None => (Raise e, st')
            end
        end.

(** [for x in l: acc = body(acc, x)] *)
Fixpoint for_each {W S X} (l : list X) (body : S → X → M W S) (acc : S)
  : M W S :=
  match l with
  | [] => ret acc
  | x :: l' => do acc' <- body acc x ; for_each l' body acc'
  end.

(** The same loop for a body that only raises or returns. *)
Fixpoint for_each_r {S X} (l : list X) (body : S → X → result S) (acc : S)
  : result S :=
  match l with
  | [] => Ok acc
  | x :: l' => let? acc' := body acc x in for_each_r l' body acc'
  end.

(** ** The collaborators *)

(** The control system behind [_cs]: [get] and [put] on one channel name
    or on a list of names. *)
Class ControlSystem (W : Type) : Type := {
  cs_get : string → W → result PyVal * W;
  cs_get_many : list string → W → result (list PyVal) * W;
  cs_put : string → PyVal → W → result unit * W;
  cs_put_many : list string → list PyVal → W → result unit * W
}.

(** The methods of [Element] the lattice calls ([pytac/element.py] is not
    among the sources). *)
Class ElementOps (W : Type) : Type := {
  Element_get_device : Element.t → string → result EpicsDevice.t;
  Element_get_value : Element.t → string → string → W → result PyVal * W;
  Element_set_value :
    Element.t → string → PyVal →
    option string → option string → option string →
    W → result unit * W
}.

(** The methods of [DataSourceManager] the lattice calls
    ([pytac/data_source.py] is not among the sources). *)
Class ManagerOps (W : Type) : Type := {
  DataSourceManager_get_value :
    DataSourceManager.t → string → string → string → string →
    W → result PyVal * W;
  DataSourceManager_set_value :
    DataSourceManager.t → string → PyVal → string → string → string →
    W → result unit * W
}.

(** ["{0}".format(obj)] for a lattice and for an element.  [Lattice]
    defines no [__str__], so the text of a lattice is that of the object
    itself, and the text of an element is given by [pytac/element.py]:
    both are parameters. *)
Class ObjectText : Type := {
  Lattice_text : Lattice.t → string;
  Element_text : Element.t → string
}.

(** [numpy.array(values, dtype=dtype)] *)
Class Numpy : Type := {
  ndarray : Type;
  dtype : Type;
  numpy_array : list PyVal → dtype → result ndarray
}.

(** What a bulk read returns: a list, or an array when a dtype is given. *)
Inductive Values `{Numpy} : Type :=
  | ValueList (l : list PyVal)
  | ValueArray (a : ndarray).

(** ** [pytac/model.py]: [DeviceModel] *)

Definition DeviceModel__init__ `{Constants} : DeviceModel.t :=
  DeviceModel.mk ∅ ENG.

Definition DeviceModel_add_device (self : DeviceModel.t) (field : string)
  (device : EpicsDevice.t) : DeviceModel.t :=
  DeviceModel.mk (<[field := device]> (DeviceModel._devices self))
    (DeviceModel.units self).

Definition DeviceModel_get_device (self : DeviceModel.t) (field : string)
  : result EpicsDevice.t :=
  getitem (DeviceModel._devices self) field.

(** ** [pytac/epics.py]: [PvEnabler] *)

Definition PvEnabler__init__ `{Interpreter} (pv : string) (enabled_value : PyVal)
  : result PvEnabler.t :=
  let? enabled := str_int_float enabled_value in
  Ok (PvEnabler.mk pv enabled).

Definition PvEnabler__nonzero__ `{Interpreter, ControlSystem W}
  (self : PvEnabler.t)
  : M W bool :=
  do pv_value <- call (CsGet (PvEnabler._pv self)) (cs_get (PvEnabler._pv self)) ;
  do current <- lift (str_int_float pv_value) ;
  ret (String.eqb (PvEnabler._enabled_value self) current).

Definition PvEnabler__bool__ `{Interpreter, ControlSystem W}
  (self : PvEnabler.t)
  : M W bool :=
  PvEnabler__nonzero__ self.

(** ** [pytac/epics.py]: [EpicsDevice] *)

Definition EpicsDevice__init__ `{Constants} (name : string) (enabled : Enabled)
  (rb_pv sp_pv : option string) : result EpicsDevice.t :=
  if bool_decide (rb_pv = None) && bool_decide (sp_pv = None) then
    raise_ DataSourceException
      ("At least one PV, either " +:+ RB +:+ " or " +:+ SP
       +:+ " is required when creating an EpicsDevice.")
  else Ok (EpicsDevice.mk name rb_pv sp_pv enabled).


Definition EpicsDevice_set_value `{ControlSystem W} (self : EpicsDevice.t)
  (value : PyVal) : M W unit :=
  match EpicsDevice.sp_pv self with
  | None =>
      raise HandleException
        ("Device " +:+ EpicsDevice.name self +:+ " has no setpoint PV.")
  | Some sp => call (CsPut sp value) (cs_put sp value)
  end.

Definition EpicsDevice_get_value `{Constants, ControlSystem W}
  (self : EpicsDevice.t) (handle : string) : M W PyVal :=
  if String.eqb handle RB && truthy (EpicsDevice.rb_pv self) then
    call (CsGet (the (EpicsDevice.rb_pv self)))
      (cs_get (the (EpicsDevice.rb_pv self)))
  else if String.eqb handle SP && truthy (EpicsDevice.sp_pv self) then
    call (CsGet (the (EpicsDevice.sp_pv self)))
      (cs_get (the (EpicsDevice.sp_pv self)))
  else
    raise HandleException
      ("Device " +:+ EpicsDevice.name self +:+ " has no " +:+ handle +:+ " PV.").

Definition EpicsDevice_get_pv_name `{Constants} (self : EpicsDevice.t)
  (handle : string) : result string :=
  if String.eqb handle RB && truthy (EpicsDevice.rb_pv self) then
    Ok (the (EpicsDevice.rb_pv self))
  else if String.eqb handle SP && truthy (EpicsDevice.sp_pv self) then
    Ok (the (EpicsDevice.sp_pv self))
  else
    raise_ HandleException
      ("Device " +:+ EpicsDevice.name self +:+ " has no " +:+ handle +:+ " PV.").

(** The rest of [DeviceModel], which goes through the devices. *)

Definition DeviceModel_get_pv_name `{Constants} (self : DeviceModel.t)
  (field handle : string) : result string :=
  let? device := getitem (DeviceModel._devices self) field in
  EpicsDevice_get_pv_name device handle.

Definition DeviceModel_get_value `{Constants, ControlSystem W}
  (self : DeviceModel.t) (field handle : string) : M W PyVal :=
  do device <- lift (getitem (DeviceModel._devices self) field) ;
  EpicsDevice_get_value device handle.

Definition DeviceModel_set_value `{ControlSystem W} (self : DeviceModel.t)
  (field : string) (value : PyVal) : M W unit :=
  do device <- lift (getitem (DeviceModel._devices self) field) ;
  EpicsDevice_set_value device value.

(** ** [pytac/epics.py]: [EpicsElement] *)

Definition EpicsElement_get_pv_name `{Constants, ObjectText} (self : Element.t)
  (field handle : string) : result string :=
  try_except
    (let? live := getitem (DataSourceManager._data_sources
                             (Element._data_source_manager self)) LIVE in
     let? device := DeviceModel_get_device live field in
     EpicsDevice_get_pv_name device handle)
    (λ e, match exc_kind e with
          | KeyError =>
              Some (raise_ DataSourceException
                      ("No data source for field " +:+ field +:+ " on element "
                       +:+ Element_text self +:+ "."))
          | FieldException =>
              Some (raise_ FieldException
                      ("No field " +:+ field +:+ " on element "
                       +:+ Element_text self +:+ "."))
          | _ => None
          end).

(** ** [pytac/lattice.py]: [Lattice] *)

(** [Lattice(name)]; [manager] is the fresh [DataSourceManager()] the
    constructor creates. *)
Definition Lattice__init__ (name : string) (manager : DataSourceManager.t)
  : Lattice.t :=
  Lattice.mk name [] manager.

Definition Lattice_add_element (self : Lattice.t) (element : Element.t)
  : Lattice.t :=
  Lattice.mk (Lattice.name self) (Lattice._lattice self ++ [element])
    (Lattice._data_source_manager self).

Definition Lattice__len__ (self : Lattice.t) : nat :=
  length (Lattice._lattice self).

(** [self._lattice[n]]: a negative index counts from the end. *)
Definition Lattice__getitem__ (self : Lattice.t) (n : Z) : result Element.t :=
  let l := Lattice._lattice self in
  let i := if n <? 0 then n + Z.of_nat (length l) else n in
  if i <? 0 then raise_ IndexError (OfBuiltin (IndexOutOfRange n))
  else
    match l !! Z.to_nat i with
    | Some e => Ok e
    | None => raise_ IndexError (OfBuiltin (IndexOutOfRange n))
    end.

(** [family in element.families]: a set of families holds strings, so
    [None] is in none of them. *)
Definition in_families (family : option string) (element : Element.t) : bool :=
  match family with
  | Some f => bool_decide (f ∈ Element.families element)
  | None => false
  end.

(** [get_elements(family=None, cell=None)].  When [family] is [None],
    [elements] is the list [_lattice] itself; the loop then appends
    nothing, since no family set holds [None].  [len(elements) is 0] holds
    exactly when the length is 0. *)
Definition Lattice_get_elements (self : Lattice.t) (family : option string)
  (cell : option Z) : result (list Element.t) :=
  let elements := [] in
  let elements :=
    if bool_decide (family = None) then Lattice._lattice self else elements in
  let elements :=
    foldl (λ elements element,
             if in_families family element then elements ++ [element]
             else elements)
      elements (Lattice._lattice self) in
  if (length elements =? 0)%nat then
    raise_ ValueError ("No elements in family " +:+ format_str family +:+ ".")
  else
    let elements :=
      match cell with
      | Some c => filter (λ e, Element.cell e = c) elements
      | None => elements
      end in
    if (length elements =? 0)%nat then
      raise_ ValueError ("No elements in cell " +:+ format_int cell +:+ ".")
    else Ok elements.

(** [get_value(field, handle, units, data_source)]; a caller that omits
    the last three passes [RB], [DEFAULT] and [DEFAULT]. *)
Definition Lattice_get_value `{ManagerOps W, ObjectText} (self : Lattice.t)
  (field handle units data_source : string) : M W PyVal :=
  try_exceptM
    (call (ManagerGetValue field handle units data_source)
       (DataSourceManager_get_value (Lattice._data_source_manager self)
          field handle units data_source))
    (λ e, match exc_kind e with
          | DataSourceException =>
              Some (raise DataSourceException
                      ("No data source " +:+ data_source +:+ " on lattice "
                       +:+ Lattice_text self +:+ "."))
          | FieldException =>
              Some (raise FieldException
                      ("Lattice " +:+ Lattice_text self
                       +:+ " does not have field " +:+ field +:+ "."))
          | _ => None
          end).

(** [set_value(field, value, handle, units, data_source)]; a caller that
    omits the last three passes [SP], [DEFAULT] and [DEFAULT]. *)
Definition Lattice_set_value `{ManagerOps W, ObjectText} (self : Lattice.t)
  (field : string) (value : PyVal) (handle units data_source : string)
  : M W unit :=
  try_exceptM
    (call (ManagerSetValue field value handle units data_source)
       (DataSourceManager_set_value (Lattice._data_source_manager self)
          field value handle units data_source))
    (λ e, match exc_kind e with
          | DataSourceException =>
              Some (raise DataSourceException
                      ("No data source " +:+ data_source +:+ " on lattice "
                       +:+ Lattice_text self +:+ "."))
          | FieldException =>
              Some (raise FieldException
                      ("Lattice " +:+ Lattice_text self
                       +:+ " does not have field " +:+ field +:+ "."))
          | _ => None
          end).

Definition Lattice_get_element_devices `{ElementOps W, ObjectText}
  (self : Lattice.t) (family : option string) (field : string)
  : M W (list EpicsDevice.t) :=
  do elements <- lift (Lattice_get_elements self family None) ;
  for_each elements
    (λ devices element,
       try_exceptM
         (do device <- lift (Element_get_device element field) ;
          ret (devices ++ [device]))
         (λ e, match exc_kind e with
               | DataSourceException =>
                   Some (do _ <- print ("No device for field " +:+ field
                                        +:+ " on element "
                                        +:+ Element_text element +:+ ".") ;
                         ret devices)
               | _ => None
               end))
    [].

Definition Lattice_get_element_device_names `{ElementOps W, ObjectText}
  (self : Lattice.t) (family : option string) (field : string)
  : M W (list string) :=
  do devices <- Lattice_get_element_devices self family field ;
  ret (map EpicsDevice.name devices).

Definition Lattice_get_element_values `{ElementOps W, Numpy}
  (self : Lattice.t) (family : option string) (field handle : string)
  (dtype_ : option dtype) : M W Values :=
  do elements <- lift (Lattice_get_elements self family None) ;
  do values <- for_each elements
                 (λ values element,
                    do value <- call (ElementGetValue element field handle)
                                  (Element_get_value element field handle) ;
                    ret (values ++ [value]))
                 [] ;
  match dtype_ with
  | Some d => do a <- lift (numpy_array values d) ; ret (ValueArray a)
  | None => ret (ValueList values)
  end.

Definition Lattice_set_element_values `{Constants, ElementOps W}
  (self : Lattice.t) (family : option string) (field : string)
  (values : list PyVal) : M W unit :=
  do elements <- lift (Lattice_get_elements self family None) ;
  if negb (length elements =? length values)%nat then
    raise IndexError
      ("Number of elements in given array must be equal "
       +:+ "to the number of elements in the family.")
  else
    for_each (zip elements values)
      (λ _ '(element, value),
         call (ElementSetValue element field value (Some SP) None None)
           (Element_set_value element field value (Some SP) None None))
      tt.

(** [elem._data_source_manager.default_units = default_units] *)
Definition Element_assign_default_units (default_units : string)
  (elem : Element.t) : Element.t :=
  let m := Element._data_source_manager elem in
  Element.mk (Element.name elem) (Element.families elem) (Element.cell elem)
    (DataSourceManager.mk (DataSourceManager._data_sources m) default_units
       (DataSourceManager.default_data_source m)).

(** [elem._data_source_manager.default_data_source = default_data_source] *)
Definition Element_assign_default_data_source (default_data_source : string)
  (elem : Element.t) : Element.t :=
  let m := Element._data_source_manager elem in
  Element.mk (Element.name elem) (Element.families elem) (Element.cell elem)
    (DataSourceManager.mk (DataSourceManager._data_sources m)
       (DataSourceManager.default_units m) default_data_source).

(** [set_default_units(default_units)]: the result and the lattice after
    the call.  [elems] is the list of the lattice's own elements, so the
    loop's assignments are assignments to them. *)
Definition Lattice_set_default_units `{Constants} (self : Lattice.t)
  (default_units : option string) : result unit * Lattice.t :=
  if bool_decide (default_units = Some ENG)
     || bool_decide (default_units = Some PHYS) then
    let m := Lattice._data_source_manager self in
    let self :=
      Lattice.mk (Lattice.name self) (Lattice._lattice self)
        (DataSourceManager.mk (DataSourceManager._data_sources m)
           (the default_units) (DataSourceManager.default_data_source m)) in
    match Lattice_get_elements self None None with
    | Raise e => (Raise e, self)
    | Ok elems =>
        (Ok tt,
         Lattice.mk (Lattice.name self)
           (map (Element_assign_default_units (the default_units)) elems)
           (Lattice._data_source_manager self))
    end
  else if negb (bool_decide (default_units = None)) then
    (raise_ UnitsException
       (format_str default_units +:+ " is not a unit type. Please enter "
        +:+ ENG +:+ " or " +:+ PHYS +:+ "."),
     self)
  else (Ok tt, self).

Definition Lattice_set_default_data_source `{Constants} (self : Lattice.t)
  (default_data_source : option string) : result unit * Lattice.t :=
  if bool_decide (default_data_source = Some LIVE)
     || bool_decide (default_data_source = Some SIM) then
    let m := Lattice._data_source_manager self in
    let self :=
      Lattice.mk (Lattice.name self) (Lattice._lattice self)
        (DataSourceManager.mk (DataSourceManager._data_sources m)
           (DataSourceManager.default_units m) (the default_data_source)) in
    match Lattice_get_elements self None None with
    | Raise e => (Raise e, self)
    | Ok elems =>
        (Ok tt,
         Lattice.mk (Lattice.name self)
           (map (Element_assign_default_data_source (the default_data_source))
              elems)
           (Lattice._data_source_manager self))
    end
  else if negb (bool_decide (default_data_source = None)) then
    (raise_ DataSourceException
       (format_str default_data_source +:+ " is not a data source. Please enter "
        +:+ LIVE +:+ " or " +:+ SIM +:+ "."),
     self)
  else (Ok tt, self).

Definition Lattice_get_default_units (self : Lattice.t) : string :=
  DataSourceManager.default_units (Lattice._data_source_manager self).

Definition Lattice_get_default_data_source (self : Lattice.t) : string :=
  DataSourceManager.default_data_source (Lattice._data_source_manager self).

(** ** [pytac/epics.py]: [EpicsLattice], a [Lattice] whose control system
    [_cs] lives in the world *)

Definition EpicsLattice_get_pv_names `{Constants, ObjectText}
  (self : Lattice.t) (family : option string) (field handle : string)
  : result (list string) :=
  let? elements := Lattice_get_elements self family None in
  for_each_r elements
    (λ pv_names element,
       let? pv_name := EpicsElement_get_pv_name element field handle in
       Ok (pv_names ++ [pv_name]))
    [].

Definition EpicsLattice_get_values
  `{Constants, ObjectText, ControlSystem W, Numpy}
  (self : Lattice.t) (family : option string) (field handle : string)
  (dtype_ : option dtype) : M W Values :=
  do pv_names <- lift (EpicsLattice_get_pv_names self family field handle) ;
  do values <- call (CsGetMany pv_names) (cs_get_many pv_names) ;
  match dtype_ with
  | Some d => do a <- lift (numpy_array values d) ; ret (ValueArray a)
  | None => ret (ValueList values)
  end.

Definition EpicsLattice_set_values `{Constants, ObjectText, ControlSystem W}
  (self : Lattice.t) (family : option string) (field : string)
  (values : list PyVal) : M W unit :=
  do pv_names <- lift (EpicsLattice_get_pv_names self family field "setpoint") ;
  if negb (length pv_names =? length values)%nat then
    raise IndexError
      ("Number of elements in given array must be equal "
       +:+ "to the number of elements in the family.")
  else call (CsPutMany pv_names values) (cs_put_many pv_names values).

(** ** The rest of [pytac/lattice.py] and [pytac/model.py] *)

(** [type(v).__name__] *)
Definition type_name (v : PyVal) : string :=
  match v with
  | PNone => "NoneType"
  | PStr _ => "str"
  | PInt _ => "int"
  | PFloat _ => "float"
  end.

(** [a += b] on numbers (an integer is converted to a float when the other
    operand is a float) and on strings; a [TypeError] for any other pair
    of operands. *)
Definition py_add (a b : PyVal) : result PyVal :=
  match a, b with
  | PInt m, PInt n => Ok (PInt (m + n))
  | PInt m, PFloat g =>
      let? f := float_of_int m in Ok (PFloat (SFadd 53 1024 f g))
  | PFloat f, PInt n =>
      let? g := float_of_int n in Ok (PFloat (SFadd 53 1024 f g))
  | PFloat f, PFloat g => Ok (PFloat (SFadd 53 1024 f g))
  | PStr x, PStr y => Ok (PStr (x +:+ y))
  | _, _ =>
      raise_ TypeError (OfBuiltin (AddOperands (type_name a) (type_name b)))
  end.

(** The attributes [s] and [length] of an element, which the lattice reads
    ([pytac/element.py] is not among the sources). *)
Class ElementAttributes : Type := {
  Element_s : Element.t → PyVal;
  Element_length : Element.t → PyVal
}.

(** [get_length()]: [total_length] starts as the integer [0]. *)
Definition Lattice_get_length `{ElementAttributes} (self : Lattice.t)
  : result PyVal :=
  for_each_r (Lattice._lattice self)
    (λ total_length e, py_add total_length (Element_length e))
    (PInt 0).

(** [get_all_families()] *)
Definition Lattice_get_all_families (self : Lattice.t) : gset string :=
  foldl (λ families element, families ∪ Element.families element)
    ∅ (Lattice._lattice self).

(** [get_family_s(family)] *)
Definition Lattice_get_family_s `{ElementAttributes} (self : Lattice.t)
  (family : option string) : result (list PyVal) :=
  let? elements := Lattice_get_elements self family None in
  Ok (foldl (λ s_positions element, s_positions ++ [Element_s element])
        [] elements).

(** The methods of [DataSourceManager] behind [Lattice.add_device],
    [Lattice.get_device] and [Lattice.get_unitconv], with the type of the
    unit conversion objects ([pytac/data_source.py] is not among the
    sources).  [add_device] changes the manager. *)
Class ManagerDeviceOps : Type := {
  UnitConv : Type;
  DataSourceManager_add_device :
    DataSourceManager.t → string → EpicsDevice.t → UnitConv →
    result unit * DataSourceManager.t;
  DataSourceManager_get_device :
    DataSourceManager.t → string → result EpicsDevice.t;
  DataSourceManager_get_unitconv :
    DataSourceManager.t → string → result UnitConv
}.

(** [add_device(field, device, uc)]: the result and the lattice after the
    call. *)
Definition Lattice_add_device `{ManagerDeviceOps, ObjectText}
  (self : Lattice.t) (field : string) (device : EpicsDevice.t)
  (uc : UnitConv) : result unit * Lattice.t :=
  let '(r, manager) :=
    DataSourceManager_add_device (Lattice._data_source_manager self)
      field device uc in
  let self' := Lattice.mk (Lattice.name self) (Lattice._lattice self) manager in
  (try_except r
     (λ e, match exc_kind e with
           | DataSourceException =>
               Some (raise_ DataSourceException
                       ("No device data source on lattice "
                        +:+ Lattice_text self +:+ "."))
           | _ => None
           end),
   self').

Definition Lattice_get_device `{ManagerDeviceOps, ObjectText}
  (self : Lattice.t) (field : string) : result EpicsDevice.t :=
  try_except
    (DataSourceManager_get_device (Lattice._data_source_manager self) field)
    (λ e, match exc_kind e with
          | DataSourceException =>
              Some (raise_ DataSourceException
                      ("No device data source on lattice "
                       +:+ Lattice_text self +:+ "."))
          | _ => None
          end).

Definition Lattice_get_unitconv `{ManagerDeviceOps, ObjectText}
  (self : Lattice.t) (field : string) : result UnitConv :=
  try_except
    (DataSourceManager_get_unitconv (Lattice._data_source_manager self) field)
    (λ e, match exc_kind e with
          | FieldException =>
              Some (raise_ FieldException
                      ("No unit conversion option for field " +:+ field
                       +:+ " on lattice " +:+ Lattice_text self +:+ "."))
          | _ => None
          end).

(** [DeviceModel.get_fields()]: the keys of [_devices], read as a set. *)
Definition DeviceModel_get_fields (self : DeviceModel.t) : gset string :=
  dom (DeviceModel._devices self).

(** ** Plain collaborators, for concrete runs

    A control system that is a dictionary of channel values, elements and
    managers that go through the live [DeviceModel] to the devices, and the
    strings [pytac/__init__.py] gives the constants. *)
Module Plain.

#[export] Instance constants : Constants := {|
  RB := "readback";
  SP := "setpoint";
  ENG := "engineering";
  PHYS := "physics";
  LIVE := "live";
  SIM := "simulation";
  DEFAULT := "default"
|}.

Definition read (w : gmap string PyVal) (pv : string) : result PyVal :=
  match w !! pv with
  | Some v => Ok v
  | None => raise_ (OtherError "ca_nothing") pv
  end.

(** An interpreter whose [float] reads the plain literals and no other
    string. *)
#[export] Instance interpreter : Interpreter := {|
  float_of_str s :=
    match plain_literal s with
    | Some f => Ok f
    | None => raise_ ValueError (OfBuiltin (FloatOfStr s))
    end;
  float_of_str_plain s f Hs :=
    @eq_ind_r _ (Some f) (λ o, match o with
                   | Some g => Ok g
                   | None => raise_ ValueError (OfBuiltin (FloatOfStr s))
                   end = Ok f) eq_refl _ Hs
|}.

#[export] Instance control_system : ControlSystem (gmap string PyVal) := {|
  cs_get pv w := (read w pv, w);
  cs_get_many pvs w :=
    (for_each_r pvs (λ vs pv, let? v := read w pv in Ok (vs ++ [v])) [], w);
  cs_put pv v w := (Ok tt, <[pv := v]> w);
  cs_put_many pvs vs w :=
    (Ok tt, foldl (λ w '(pv, v), <[pv := v]> w) w (zip pvs vs))
|}.

#[export] Instance object_text : ObjectText := {|
  Lattice_text l := "<Lattice " +:+ Lattice.name l +:+ ">";
  Element_text e := "<Element " +:+ Element.name e +:+ ">"
|}.

(** The device of a field of an element: that of its live data source, a
    [DataSourceException] when there is none. *)
Definition device_of (e : Element.t) (field : string) : result EpicsDevice.t :=
  try_except
    (let? live := getitem (DataSourceManager._data_sources
                             (Element._data_source_manager e)) LIVE in
     DeviceModel_get_device live field)
    (λ x, match exc_kind x with
          | KeyError =>
              Some (raise_ DataSourceException
                      ("No device for field " +:+ field +:+ "."))
          | _ => None
          end).

#[export] Instance elements : ElementOps (gmap string PyVal) := {|
  Element_get_device := device_of;
  Element_get_value e field handle w :=
    match device_of e field with
    | Ok d =>
        match EpicsDevice_get_pv_name d handle with
        | Ok pv => (read w pv, w)
        | Raise x => (Raise x, w)
        end
    | Raise x => (Raise x, w)
    end;
  Element_set_value e field value _ _ _ w :=
    match device_of e field with
    | Ok d =>
        match EpicsDevice.sp_pv d with
        | Some sp => (Ok tt, <[sp := value]> w)
        | None =>
            (raise_ HandleException
               ("Device " +:+ EpicsDevice.name d +:+ " has no setpoint PV."), w)
        end
    | Raise x => (Raise x, w)
    end
|}.

(** A manager that has the data sources registered in it and the fields of
    their devices, and reads and writes the channels directly. *)
#[export] Instance managers : ManagerOps (gmap string PyVal) := {|
  DataSourceManager_get_value m field handle units data_source w :=
    match DataSourceManager._data_sources m
          !! (if String.eqb data_source DEFAULT
              then DataSourceManager.default_data_source m else data_source) with
    | None => (raise_ DataSourceException "No data source.", w)
    | Some ds =>
        match DeviceModel._devices ds !! field with
        | None => (raise_ FieldException "No field.", w)
        | Some d =>
            match EpicsDevice_get_pv_name d handle with
            | Ok pv => (read w pv, w)
            | Raise x => (Raise x, w)
            end
        end
    end;
  DataSourceManager_set_value m field value handle units data_source w :=
    match DataSourceManager._data_sources m
          !! (if String.eqb data_source DEFAULT
              then DataSourceManager.default_data_source m else data_source) with
    | None => (raise_ DataSourceException "No data source.", w)
    | Some ds =>
        match DeviceModel._devices ds !! field with
        | None => (raise_ FieldException "No field.", w)
        | Some d =>
            match EpicsDevice.sp_pv d with
            | Some sp => (Ok tt, <[sp := value]> w)
            | None => (raise_ HandleException "No setpoint PV.", w)
            end
        end
    end
|}.

#[export] Instance numpy : Numpy := {|
  ndarray := list PyVal;
  dtype := unit;
  numpy_array values _ := Ok values
|}.

(** A manager with one live device per given field, and an element that
    owns such a manager. *)
Definition manager (devices : list (string * EpicsDevice.t))
  : DataSourceManager.t :=
  DataSourceManager.mk {[ LIVE := DeviceModel.mk (list_to_map devices) ENG ]}
    ENG LIVE.

Definition bare_manager : DataSourceManager.t :=
  DataSourceManager.mk ∅ ENG LIVE.

Definition element (name : string) (families : list string) (cell : Z)
  (devices : list (string * EpicsDevice.t)) : Element.t :=
  Element.mk name (list_to_set families) cell (manager devices).

Definition device (name : string) (rb_pv sp_pv : option string)
  : EpicsDevice.t :=
  EpicsDevice.mk name rb_pv sp_pv (EnabledBool true).

Definition state (w : gmap string PyVal) : State (gmap string PyVal) :=
  mkState w [] [].

(** A ring of three position monitors and a drift; the second monitor has
    no device for the field [x]. *)
Definition bpm1 : Element.t :=
  element "BPM1" ["BPM"] 1 [("x", device "BPM1" (Some "BPM1:X") (Some "BPM1:SX"))].

Definition drift : Element.t := element "D1" ["DRIFT"] 1 [].

Definition bpm2 : Element.t :=
  element "BPM2" ["BPM"] 1 [("y", device "BPM2" (Some "BPM2:Y") (Some "BPM2:SY"))].

Definition bpm3 : Element.t :=
  element "BPM3" ["BPM"] 2 [("x", device "BPM3" (Some "BPM3:X") (Some "BPM3:SX"))].

Definition ring : Lattice.t :=
  Lattice.mk "SR" [bpm1; drift; bpm2; bpm3] bare_manager.

(** The same ring without the second monitor. *)
Definition ring_x : Lattice.t :=
  Lattice.mk "SR" [bpm1; drift; bpm3] bare_manager.

Definition channels : gmap string PyVal :=
  {[ "BPM1:X" := PInt 1; "BPM3:X" := PInt 3;
     "BPM1:SX" := PInt 10; "BPM3:SX" := PInt 30 ]}.

(** Elements whose lookup of a device raises a [FieldException] for a
    field without a device, and a [DataSourceException] without a live
    data source. *)
Definition device_or_field_error (e : Element.t) (field : string)
  : result EpicsDevice.t :=
  match DataSourceManager._data_sources (Element._data_source_manager e)
        !! LIVE with
  | Some live =>
      match DeviceModel._devices live !! field with
      | Some d => Ok d
      | None => raise_ FieldException ("No field " +:+ field +:+ ".")
      end
  | None => raise_ DataSourceException "No device data source."
  end.

#[export] Instance field_elements : ElementOps (gmap string PyVal) := {|
  Element_get_device := device_or_field_error;
  Element_get_value := @Element_get_value _ elements;
  Element_set_value := @Element_set_value _ elements
|}.

(** A monitor with no live data source, and a ring that has it before the
    second monitor. *)
Definition bpm0 : Element.t :=
  Element.mk "BPM0" {["BPM"]} 1 bare_manager.

Definition ring_0 : Lattice.t :=
  Lattice.mk "SR" [bpm0; bpm1; bpm2; bpm3] bare_manager.

(** Positions and lengths by element name: a drift of length 1.5 between
    monitors of length 0. *)
Definition one_and_a_half : spec_float := S754_finite false 3 (-1).

#[export] Instance attributes : ElementAttributes := {|
  Element_s e :=
    if String.eqb (Element.name e) "BPM1" then PFloat (S754_zero false)
    else if String.eqb (Element.name e) "D1" then PFloat (S754_zero false)
    else PFloat one_and_a_half;
  Element_length e :=
    if String.eqb (Element.name e) "D1" then PFloat one_and_a_half
    else PInt 0
|}.

End Plain.

(** ** The vocabulary of the properties *)

(** The members of a family, as the specification describes them: the
    elements whose family set holds the family, in the order of the ring. *)
Definition family_members (self : Lattice.t) (F : string) : list Element.t :=
  filter (λ e, F ∈ Element.families e) (Lattice._lattice self).

(** The members of a family that lie in a cell. *)
Definition cell_members (self : Lattice.t) (F : string) (C : Z)
  : list Element.t :=
  filter (λ e, Element.cell e = C) (family_members self F).

(** The description of a refused handle. *)
Definition no_pv_message (name handle : string) : string :=
  "Device " +:+ name +:+ " has no " +:+ handle +:+ " PV.".

(** The description the lattice gives an error of the manager that it
    catches. *)
Definition described `{ObjectText} (self : Lattice.t)
  (field data_source : string) (k : ExcKind) : string :=
  if decide (k = DataSourceException) then
    "No data source " +:+ data_source +:+ " on lattice "
    +:+ Lattice_text self +:+ "."
  else
    "Lattice " +:+ Lattice_text self +:+ " does not have field "
    +:+ field +:+ ".".

(** The line printed for a member that has no device for the field. *)
Definition diagnostic `{ObjectText} (field : string) (element : Element.t)
  : string :=
  "No device for field " +:+ field +:+ " on element "
  +:+ Element_text element +:+ ".".

(** The devices of the members that define the field, and the members
    that do not. *)
Definition devices_of `{ElementOps W} (field : string)
  (elements : list Element.t) : list EpicsDevice.t :=
  omap (λ e, to_option (Element_get_device e field)) elements.

Definition lacking `{ElementOps W} (field : string)
  (elements : list Element.t) : list Element.t :=
  filter (λ e, is_Ok (Element_get_device e field) = false) elements.

(** The write [set_element_values] issues for a member and its value: a
    call of the element's [set_value] with the field, the value and
    [handle=SP], and neither [units] nor [data_source]. *)
Definition setpoint_write `{Constants} (field : string)
  (p : Element.t * PyVal) : Call :=
  ElementSetValue p.1 field p.2 (Some SP) None None.

(** The description of the [IndexError] of [set_element_values]. *)
Definition length_message : string :=
  "Number of elements in given array must be equal to the number of "
  +:+ "elements in the family.".

(** The loop of [set_element_values], by itself. *)
Definition write_loop `{Constants, ElementOps W} (field : string)
  (pairs : list (Element.t * PyVal)) : M W unit :=
  for_each pairs
    (λ _ '(element, value),
       call (ElementSetValue element field value (Some SP) None None)
         (Element_set_value element field value (Some SP) None None))
    tt.

(** The world the setpoint writes of the pairs leave, issued one after
    the other from the world [w], when every one of them returns; [None]
    when one of them raises. *)
Fixpoint write_all `{Constants, ElementOps W} (field : string)
  (pairs : list (Element.t * PyVal)) (w : W) : option W :=
  match pairs with
  | [] => Some w
  | (e, v) :: pairs' =>
      match Element_set_value e field v (Some SP) None None w with
      | (Ok _, w') => write_all field pairs' w'
      | (Raise _, _) => None
      end
  end.

(** The loop of [get_pv_names], from the names resolved so far. *)
Definition pv_names_loop `{Constants, ObjectText} (field handle : string)
  (elements : list Element.t) (pv_names : list string)
  : result (list string) :=
  for_each_r elements
    (λ pv_names element,
       let? pv_name := EpicsElement_get_pv_name element field handle in
       Ok (pv_names ++ [pv_name]))
    pv_names.

(** What [get_values] returns from the values of the batched read. *)
Definition coerced `{Numpy} (dtype_ : option dtype) (values : list PyVal)
  : result Values :=
  match dtype_ with
  | Some d => let? a := numpy_array values d in Ok (ValueArray a)
  | None => Ok (ValueList values)
  end.

(** The batched [get] answers, for each name and in the order of the
    names, with the value a [get] on that name alone gives in the same
    world. *)
Definition order_preserving `{ControlSystem W} : Prop :=
  ∀ (names : list string) (w w' : W) (values : list PyVal),
    cs_get_many names w = (Ok values, w') →
    Forall2 (λ n v, (cs_get n w).1 = Ok v) names values.

(** An element that a family, when one is given, and a cell, when one is
    given, select. *)
Definition selects (family : option string) (cell : option Z)
  (e : Element.t) : bool :=
  match family with
  | Some F => bool_decide (F ∈ Element.families e)
  | None => true
  end
  && match cell with
     | Some C => bool_decide (Element.cell e = C)
     | None => true
     end.

(** The read [get_element_values] issues for a member. *)
Definition value_read (field handle : string) (e : Element.t) : Call :=
  ElementGetValue e field handle.

(** The loop of [get_element_values], from the values read so far. *)
Definition read_loop `{ElementOps W} (field handle : string)
  (elements : list Element.t) (values : list PyVal) : M W (list PyVal) :=
  for_each elements
    (λ values element,
       do value <- call (ElementGetValue element field handle)
                     (Element_get_value element field handle) ;
       ret (values ++ [value]))
    values.

(** The values the reads of the elements give and the world they leave,
    issued one after the other from the world [w], when every one of them
    returns; [None] when one of them raises. *)
Fixpoint read_all `{ElementOps W} (field handle : string)
  (elements : list Element.t) (w : W) : option (list PyVal * W) :=
  match elements with
  | [] => Some ([], w)
  | e :: elements' =>
      match Element_get_value e field handle w with
      | (Ok v, w') =>
          match read_all field handle elements' w' with
          | Some (values, w'') => Some (v :: values, w'')
          | None => None
          end
      | (Raise _, _) => None
      end
  end.

(** The description the lattice gives a [DataSourceException] of
    [add_device] and of [get_device]. *)
Definition no_device_source `{ObjectText} (self : Lattice.t) : string :=
  "No device data source on lattice " +:+ Lattice_text self +:+ ".".

(** * Properties *)

(** ** [Lattice.get_elements] *)

Lemma length_eqb_0 {A} (l : list A) :
  (length l =? 0)%nat = bool_decide (l = []).
Proof. destruct l; reflexivity. Qed.

(** The loop of [get_elements] appends the members to what it starts
    from. *)
Lemma get_elements_loop (F : string) (l acc : list Element.t) :
  foldl (λ elements element,
           if in_families (Some F) element then elements ++ [element]
           else elements) acc l
  = acc ++ filter (λ e, F ∈ Element.families e) l.
Proof.
  revert acc. induction l as [|e l IH]; intros acc; simpl.
  - by rewrite app_nil_r.
  - rewrite IH, filter_cons. case_bool_decide; case_decide; try done.
    by rewrite <- app_assoc.
Qed.

(** With no family the loop appends nothing. *)
Lemma get_elements_loop_None (l acc : list Element.t) :
  foldl (λ elements element,
           if in_families None element then elements ++ [element]
           else elements) acc l
  = acc.
Proof. revert acc. induction l as [|e l IH]; intros acc; simpl; auto. Qed.

Lemma get_elements_family (self : Lattice.t) (F : string) (cell : option Z) :
  Lattice_get_elements self (Some F) cell =
  if bool_decide (family_members self F = []) then
    raise_ ValueError ("No elements in family " +:+ F +:+ ".")
  else
    match cell with
    | None => Ok (family_members self F)
    | Some C =>
        if bool_decide (cell_members self F C = []) then
          raise_ ValueError ("No elements in cell " +:+ py_str C +:+ ".")
        else Ok (cell_members self F C)
    end.
Proof.
  unfold Lattice_get_elements. cbv zeta.
  rewrite (bool_decide_eq_false_2 (Some F = None)) by done.
  rewrite get_elements_loop, app_nil_l, !length_eqb_0.
  fold (family_members self F).
  case_bool_decide as Hfam; [done|].
  destruct cell as [C|].
  - fold (cell_members self F C). done.
  - by case_bool_decide.
Qed.

Lemma get_elements_all (self : Lattice.t) :
  Lattice_get_elements self None None =
  if bool_decide (Lattice._lattice self = []) then
    raise_ ValueError "No elements in family None."
  else Ok (Lattice._lattice self).
Proof.
  unfold Lattice_get_elements. cbv zeta.
  rewrite (bool_decide_eq_true_2 (None = None)) by done.
  rewrite get_elements_loop_None, !length_eqb_0.
  by case_bool_decide.
Qed.

(** C1: [get_elements(F)] returns exactly the elements whose family set
    holds [F], in lattice order, and raises the [ValueError] about the
    family when there is none; with a cell [C] the members of [F] are then
    restricted to those whose cell is [C], and a second [ValueError], about
    the cell, is raised when none is left.  The family check comes first:
    when [F] has no member the error is the one about the family, whatever
    the cell. *)
Theorem C1_get_elements_family_then_cell :
  ∀ (self : Lattice.t) (F : string),
    (* what the two selections are *)
    (∀ e, e ∈ family_members self F ↔
          e ∈ Lattice._lattice self ∧ F ∈ Element.families e)
    ∧ family_members self F `sublist_of` Lattice._lattice self
    ∧ (∀ C e, e ∈ cell_members self F C ↔
              e ∈ family_members self F ∧ Element.cell e = C)
    ∧ (∀ C, cell_members self F C `sublist_of` family_members self F)
    (* the family alone *)
    ∧ Lattice_get_elements self (Some F) None =
      (if bool_decide (family_members self F = []) then
         raise_ ValueError ("No elements in family " +:+ F +:+ ".")
       else Ok (family_members self F))
    (* the family and a cell *)
    ∧ (∀ C, Lattice_get_elements self (Some F) (Some C) =
            if bool_decide (family_members self F = []) then
              raise_ ValueError ("No elements in family " +:+ F +:+ ".")
            else if bool_decide (cell_members self F C = []) then
              raise_ ValueError ("No elements in cell " +:+ py_str C +:+ ".")
            else Ok (cell_members self F C)).
Proof.
  intros self F. unfold cell_members, family_members.
  split_and!.
  - intros e. rewrite list_elem_of_filter. tauto.
  - apply sublist_filter.
  - intros C e. rewrite list_elem_of_filter. tauto.
  - intros C. apply sublist_filter.
  - apply (get_elements_family self F None).
  - intros C. apply (get_elements_family self F (Some C)).
Qed.

(** On a lattice that has an element, [get_elements()] returns all the
    elements, in the order of [_lattice]. *)
Lemma get_elements_all_nonempty (self : Lattice.t) :
  Lattice._lattice self ≠ [] →
  Lattice_get_elements self None None = Ok (Lattice._lattice self).
Proof. intros Hne. rewrite get_elements_all. by case_bool_decide. Qed.

(** [add_element] keeps the order in which the elements are added. *)
Lemma add_element_order (self : Lattice.t) (es : list Element.t) :
  Lattice._lattice (foldl Lattice_add_element self es)
  = Lattice._lattice self ++ es.
Proof.
  revert self. induction es as [|e es IH]; intros self; simpl.
  - by rewrite app_nil_r.
  - rewrite IH. simpl. by rewrite <- app_assoc.
Qed.

(** A lattice built by adding one element or more returns them all, in
    the order in which they were added. *)
Lemma get_elements_all_added (name : string) (manager : DataSourceManager.t)
  (e : Element.t) (es : list Element.t) :
  Lattice_get_elements
    (foldl Lattice_add_element (Lattice__init__ name manager) (e :: es))
    None None
  = Ok (e :: es).
Proof.
  rewrite get_elements_all_nonempty; rewrite add_element_order; done.
Qed.

(** C9, on the lattice with no element: [get_elements()] does not return
    the empty list of all its elements, it raises the [ValueError] about
    the family [None]. *)
Theorem C9_get_elements_empty_lattice_raises :
  ∀ (name : string) (manager : DataSourceManager.t),
    Lattice_get_elements (Lattice__init__ name manager) None None
    = raise_ ValueError "No elements in family None.".
Proof. intros name manager. by rewrite get_elements_all. Qed.

(** X1: on a lattice that has at least one element, [get_elements()]
    with no family and no cell returns all the elements of the lattice,
    unfiltered, in the order of [_lattice], which is the order in which
    [add_element] added them. *)
Theorem X1_get_elements_all_in_order :
  ∀ self : Lattice.t,
    Lattice._lattice self ≠ [] →
    Lattice_get_elements self None None = Ok (Lattice._lattice self)
    ∧ ∀ es : list Element.t,
        Lattice_get_elements (foldl Lattice_add_element self es) None None
        = Ok (Lattice._lattice self ++ es).
Proof.
  intros self Hne. split.
  - by apply get_elements_all_nonempty.
  - intros es. rewrite get_elements_all_nonempty; rewrite add_element_order.
    + done.
    + by destruct (Lattice._lattice self).
Qed.

Lemma X1_get_elements_all_in_order_witness :
  Lattice._lattice Plain.ring ≠ []
  ∧ Lattice_get_elements Plain.ring None None
    = Ok [Plain.bpm1; Plain.drift; Plain.bpm2; Plain.bpm3].
Proof.
  assert (Hne : Lattice._lattice Plain.ring ≠ []) by discriminate.
  split; [exact Hne|].
  exact (proj1 (X1_get_elements_all_in_order Plain.ring Hne)).
Defined.

(** ** [Lattice.set_default_units], [Lattice.set_default_data_source] *)

Section Defaults.
Context `{Constants}.

(** A valid unit type on a lattice that has an element: the call returns,
    the lattice's manager and every element's manager have the new default
    and nothing else of the lattice has changed. *)
Lemma set_default_units_valid (self : Lattice.t) (u : string) :
  Lattice._lattice self ≠ [] →
  u = ENG ∨ u = PHYS →
  ∃ self',
    Lattice_set_default_units self (Some u) = (Ok tt, self')
    ∧ Lattice_get_default_units self' = u
    ∧ Forall (λ e, DataSourceManager.default_units
                     (Element._data_source_manager e) = u)
        (Lattice._lattice self')
    ∧ Lattice._lattice self'
      = map (Element_assign_default_units u) (Lattice._lattice self)
    ∧ Lattice.name self' = Lattice.name self
    ∧ Lattice_get_default_data_source self'
      = Lattice_get_default_data_source self.
Proof.
  intros Hne Hu. unfold Lattice_set_default_units.
  assert (bool_decide (Some u = Some ENG) || bool_decide (Some u = Some PHYS)
          = true) as ->.
  { destruct Hu as [-> | ->].
    - by rewrite bool_decide_eq_true_2.
    - rewrite (bool_decide_eq_true_2 (Some PHYS = Some PHYS)) by done.
      apply orb_true_r. }
  cbv zeta. rewrite get_elements_all_nonempty by done. simpl.
  eexists. split_and!; try reflexivity.
  apply Forall_map, Forall_forall. intros e _. reflexivity.
Qed.

(** [None] is accepted and changes nothing. *)
Lemma set_default_units_None (self : Lattice.t) :
  Lattice_set_default_units self None = (Ok tt, self).
Proof. reflexivity. Qed.

(** Anything else raises [UnitsException] and changes nothing. *)
Lemma set_default_units_invalid (self : Lattice.t) (u : string) :
  u ≠ ENG → u ≠ PHYS →
  Lattice_set_default_units self (Some u)
  = (raise_ UnitsException
       (u +:+ " is not a unit type. Please enter " +:+ ENG +:+ " or "
        +:+ PHYS +:+ "."),
     self).
Proof.
  intros H1 H2. unfold Lattice_set_default_units.
  rewrite (bool_decide_eq_false_2 (Some u = Some ENG)) by congruence.
  rewrite (bool_decide_eq_false_2 (Some u = Some PHYS)) by congruence.
  reflexivity.
Qed.

Lemma set_default_data_source_valid (self : Lattice.t) (d : string) :
  Lattice._lattice self ≠ [] →
  d = LIVE ∨ d = SIM →
  ∃ self',
    Lattice_set_default_data_source self (Some d) = (Ok tt, self')
    ∧ Lattice_get_default_data_source self' = d
    ∧ Forall (λ e, DataSourceManager.default_data_source
                     (Element._data_source_manager e) = d)
        (Lattice._lattice self')
    ∧ Lattice._lattice self'
      = map (Element_assign_default_data_source d) (Lattice._lattice self)
    ∧ Lattice.name self' = Lattice.name self
    ∧ Lattice_get_default_units self' = Lattice_get_default_units self.
Proof.
  intros Hne Hd. unfold Lattice_set_default_data_source.
  assert (bool_decide (Some d = Some LIVE) || bool_decide (Some d = Some SIM)
          = true) as ->.
  { destruct Hd as [-> | ->].
    - by rewrite bool_decide_eq_true_2.
    - rewrite (bool_decide_eq_true_2 (Some SIM = Some SIM)) by done.
      apply orb_true_r. }
  cbv zeta. rewrite get_elements_all_nonempty by done. simpl.
  eexists. split_and!; try reflexivity.
  apply Forall_map, Forall_forall. intros e _. reflexivity.
Qed.

Lemma set_default_data_source_None (self : Lattice.t) :
  Lattice_set_default_data_source self None = (Ok tt, self).
Proof. reflexivity. Qed.

Lemma set_default_data_source_invalid (self : Lattice.t) (d : string) :
  d ≠ LIVE → d ≠ SIM →
  Lattice_set_default_data_source self (Some d)
  = (raise_ DataSourceException
       (d +:+ " is not a data source. Please enter " +:+ LIVE +:+ " or "
        +:+ SIM +:+ "."),
     self).
Proof.
  intros H1 H2. unfold Lattice_set_default_data_source.
  rewrite (bool_decide_eq_false_2 (Some d = Some LIVE)) by congruence.
  rewrite (bool_decide_eq_false_2 (Some d = Some SIM)) by congruence.
  reflexivity.
Qed.

(** C3, on the lattice with no element: [set_default_units(ENG)] and
    [set_default_data_source(LIVE)] do not return; each sets the default
    of the lattice's own manager and then raises the [ValueError] of
    [get_elements()]. *)
Theorem C3_set_default_empty_lattice_raises :
  ∀ (name : string) (manager : DataSourceManager.t),
    Lattice_set_default_units (Lattice__init__ name manager) (Some ENG)
    = (raise_ ValueError "No elements in family None.",
       Lattice.mk name []
         (DataSourceManager.mk (DataSourceManager._data_sources manager) ENG
            (DataSourceManager.default_data_source manager)))
    ∧ Lattice_set_default_data_source (Lattice__init__ name manager) (Some LIVE)
      = (raise_ ValueError "No elements in family None.",
         Lattice.mk name []
           (DataSourceManager.mk (DataSourceManager._data_sources manager)
              (DataSourceManager.default_units manager) LIVE)).
Proof.
  intros name manager. unfold Lattice_set_default_units,
    Lattice_set_default_data_source.
  rewrite (bool_decide_eq_true_2 (Some ENG = Some ENG)) by done.
  rewrite (bool_decide_eq_true_2 (Some LIVE = Some LIVE)) by done.
  split; reflexivity.
Qed.

(** X2: on a lattice that has at least one element,
    [set_default_units(u)] with [u] equal to [ENG] or [PHYS] returns, and
    the lattice after the call is the lattice before it with the default
    units of its manager set to [u] and, in every element, the default
    units of the element's manager set to [u]: the name, the elements
    and their order, the names, families and cells of the elements, and
    the data sources and default data source of every manager are what
    they were.  On every lattice, also the one with no element, [None]
    changes nothing and returns, and any other value raises a
    [UnitsException] that quotes the value and the two unit types, and
    changes nothing.  The same holds of [set_default_data_source] with
    [LIVE], [SIM] and [DataSourceException]. *)
Theorem X2_set_default_propagates :
  ∀ self : Lattice.t,
    let m := Lattice._data_source_manager self in
    (Lattice._lattice self ≠ [] →
     (∀ u, u = ENG ∨ u = PHYS →
        Lattice_set_default_units self (Some u)
        = (Ok tt,
           Lattice.mk (Lattice.name self)
             (map (λ e,
                     let em := Element._data_source_manager e in
                     Element.mk (Element.name e) (Element.families e)
                       (Element.cell e)
                       (DataSourceManager.mk
                          (DataSourceManager._data_sources em) u
                          (DataSourceManager.default_data_source em)))
                (Lattice._lattice self))
             (DataSourceManager.mk (DataSourceManager._data_sources m) u
                (DataSourceManager.default_data_source m))))
     ∧ (∀ d, d = LIVE ∨ d = SIM →
          Lattice_set_default_data_source self (Some d)
          = (Ok tt,
             Lattice.mk (Lattice.name self)
               (map (λ e,
                       let em := Element._data_source_manager e in
                       Element.mk (Element.name e) (Element.families e)
                         (Element.cell e)
                         (DataSourceManager.mk
                            (DataSourceManager._data_sources em)
                            (DataSourceManager.default_units em) d))
                  (Lattice._lattice self))
               (DataSourceManager.mk (DataSourceManager._data_sources m)
                  (DataSourceManager.default_units m) d))))
    ∧ Lattice_set_default_units self None = (Ok tt, self)
    ∧ (∀ u, u ≠ ENG → u ≠ PHYS →
         Lattice_set_default_units self (Some u)
         = (raise_ UnitsException
              (u +:+ " is not a unit type. Please enter " +:+ ENG
               +:+ " or " +:+ PHYS +:+ "."),
            self))
    ∧ Lattice_set_default_data_source self None = (Ok tt, self)
    ∧ (∀ d, d ≠ LIVE → d ≠ SIM →
         Lattice_set_default_data_source self (Some d)
         = (raise_ DataSourceException
              (d +:+ " is not a data source. Please enter " +:+ LIVE
               +:+ " or " +:+ SIM +:+ "."),
            self)).
Proof.
  intros self m. subst m. split_and!.
  - intros Hne. split.
    + intros u Hu. unfold Lattice_set_default_units.
      assert (bool_decide (Some u = Some ENG)
              || bool_decide (Some u = Some PHYS) = true) as ->.
      { destruct Hu as [-> | ->].
        - by rewrite bool_decide_eq_true_2.
        - rewrite (bool_decide_eq_true_2 (Some PHYS = Some PHYS)) by done.
          apply orb_true_r. }
      cbv zeta. by rewrite get_elements_all_nonempty.
    + intros d Hd. unfold Lattice_set_default_data_source.
      assert (bool_decide (Some d = Some LIVE)
              || bool_decide (Some d = Some SIM) = true) as ->.
      { destruct Hd as [-> | ->].
        - by rewrite bool_decide_eq_true_2.
        - rewrite (bool_decide_eq_true_2 (Some SIM = Some SIM)) by done.
          apply orb_true_r. }
      cbv zeta. by rewrite get_elements_all_nonempty.
  - reflexivity.
  - intros u H1 H2. by apply set_default_units_invalid.
  - reflexivity.
  - intros d H1 H2. by apply set_default_data_source_invalid.
Qed.

End Defaults.

Lemma X2_set_default_propagates_witness :
  Lattice._lattice Plain.ring ≠ []
  ∧ ∃ self',
      @Lattice_set_default_units Plain.constants Plain.ring (Some "physics")
      = (Ok tt, self')
      ∧ Lattice_get_default_units self' = "physics"
      ∧ Forall (λ e, DataSourceManager.default_units
                       (Element._data_source_manager e) = "physics")
          (Lattice._lattice self')
      ∧ map Element.name (Lattice._lattice self')
        = map Element.name (Lattice._lattice Plain.ring).
Proof.
  assert (Hne : Lattice._lattice Plain.ring ≠ []) by discriminate.
  split; [exact Hne|].
  destruct (@X2_set_default_propagates Plain.constants Plain.ring)
    as [Hvalid _].
  destruct (Hvalid Hne) as [Hunits _].
  eexists. split; [exact (Hunits "physics" (or_intror eq_refl))|].
  split_and!; [reflexivity| |reflexivity].
  repeat constructor.
Defined.

(** ** [EpicsDevice] *)

Section Devices.
Context `{Constants} `{ControlSystem W}.

(** The constructor raises exactly when both channels are [None]. *)
Lemma EpicsDevice__init__spec (name : string) (enabled : Enabled)
  (rb_pv sp_pv : option string) :
  EpicsDevice__init__ name enabled rb_pv sp_pv =
  match rb_pv, sp_pv with
  | None, None =>
      raise_ DataSourceException
        ("At least one PV, either " +:+ RB +:+ " or " +:+ SP
         +:+ " is required when creating an EpicsDevice.")
  | _, _ => Ok (EpicsDevice.mk name rb_pv sp_pv enabled)
  end.
Proof. by destruct rb_pv, sp_pv. Qed.

(** A handle whose channel is not true as a condition is refused, by
    [get_value] before any call to the control system and by
    [get_pv_name]. *)
Lemma get_value_refused (self : EpicsDevice.t) (handle : string) :
  (handle = RB → truthy (EpicsDevice.rb_pv self) = false) →
  (handle = SP → truthy (EpicsDevice.sp_pv self) = false) →
  (∀ st : State W,
     EpicsDevice_get_value self handle st
     = (raise_ HandleException (no_pv_message (EpicsDevice.name self) handle),
        st))
  ∧ EpicsDevice_get_pv_name self handle
    = raise_ HandleException (no_pv_message (EpicsDevice.name self) handle).
Proof.
  intros Hrb Hsp.
  unfold EpicsDevice_get_value, EpicsDevice_get_pv_name.
  assert (String.eqb handle RB && truthy (EpicsDevice.rb_pv self) = false)
    as ->.
  { destruct (String.eqb_spec handle RB) as [Heq|]; [|done].
    by rewrite (Hrb Heq). }
  assert (String.eqb handle SP && truthy (EpicsDevice.sp_pv self) = false)
    as ->.
  { destruct (String.eqb_spec handle SP) as [Heq|]; [|done].
    by rewrite (Hsp Heq). }
  done.
Qed.

(** C5: constructing a device with neither channel raises a
    [DataSourceException]; a device constructed with only a setpoint channel
    refuses [get_value(RB)] and [get_pv_name(RB)] with a [HandleException];
    a device constructed with only a readback channel refuses
    [set_value(v)], for every [v], [get_value(SP)] and [get_pv_name(SP)]
    with a [HandleException].  No refused call reaches the control
    system.  [RB] and [SP] are different handles. *)
Theorem C5_device_channels_required :
  RB ≠ SP →
  ∀ (name : string) (enabled : Enabled),
    EpicsDevice__init__ name enabled None None
    = raise_ DataSourceException
        ("At least one PV, either " +:+ RB +:+ " or " +:+ SP
         +:+ " is required when creating an EpicsDevice.")
    ∧ (∀ sp : string,
         ∃ device,
           EpicsDevice__init__ name enabled None (Some sp) = Ok device
           ∧ (∀ st : State W,
                EpicsDevice_get_value device RB st
                = (raise_ HandleException (no_pv_message name RB), st))
           ∧ EpicsDevice_get_pv_name device RB
             = raise_ HandleException (no_pv_message name RB))
    ∧ (∀ rb : string,
         ∃ device,
           EpicsDevice__init__ name enabled (Some rb) None = Ok device
           ∧ (∀ (v : PyVal) (st : State W),
                EpicsDevice_set_value device v st
                = (raise_ HandleException
                     ("Device " +:+ name +:+ " has no setpoint PV."), st))
           ∧ (∀ st : State W,
                EpicsDevice_get_value device SP st
                = (raise_ HandleException (no_pv_message name SP), st))
           ∧ EpicsDevice_get_pv_name device SP
             = raise_ HandleException (no_pv_message name SP)).
Proof.
  intros Hne name enabled. split_and!.
  - reflexivity.
  - intros sp. eexists. split; [reflexivity|].
    apply (get_value_refused (EpicsDevice.mk name None (Some sp) enabled) RB);
      [done|]. intros Heq. by destruct Hne.
  - intros rb. eexists. split; [reflexivity|]. split; [done|].
    apply (get_value_refused (EpicsDevice.mk name (Some rb) None enabled) SP);
      [|done]. intros Heq. by destruct Hne.
Qed.

(** C10: the constructor refuses only the case in which both channels are
    [None]; a device whose only channel is the empty string, which is not
    [None] but is false as a condition, is constructed without a
    [DataSourceException], and [get_value(h)] and [get_pv_name(h)] raise a
    [HandleException] on it for every handle [h], since they test the
    channel as a condition. *)
Theorem C10_falsy_channel_device :
  ∀ (name : string) (enabled : Enabled),
    (∀ rb_pv sp_pv : option string,
       is_Ok (EpicsDevice__init__ name enabled rb_pv sp_pv) = false
       ↔ rb_pv = None ∧ sp_pv = None)
    ∧ (∀ rb_pv sp_pv : option string,
         (rb_pv, sp_pv) = (Some "", None) ∨ (rb_pv, sp_pv) = (None, Some "")
         ∨ (rb_pv, sp_pv) = (Some "", Some "") →
         ∃ device,
           EpicsDevice__init__ name enabled rb_pv sp_pv = Ok device
           ∧ ∀ h : string,
               (∀ st : State W,
                  EpicsDevice_get_value device h st
                  = (raise_ HandleException (no_pv_message name h), st))
               ∧ EpicsDevice_get_pv_name device h
                 = raise_ HandleException (no_pv_message name h)).
Proof.
  intros name enabled. split.
  - intros rb_pv sp_pv. rewrite EpicsDevice__init__spec.
    destruct rb_pv, sp_pv; simpl; split; try done; by intros [? ?].
  - intros rb_pv sp_pv Hpv. rewrite EpicsDevice__init__spec.
    exists (EpicsDevice.mk name rb_pv sp_pv enabled).
    split.
    + by destruct Hpv as [Hpv | [Hpv | Hpv]]; injection Hpv as -> ->.
    + intros h.
      apply (get_value_refused (EpicsDevice.mk name rb_pv sp_pv enabled) h);
        intros _; by destruct Hpv as [Hpv | [Hpv | Hpv]]; injection Hpv as -> ->.
Qed.

End Devices.

Lemma C5_device_channels_required_witness :
  let d := Plain.device "BPM1" None (Some "BPM1:SP") in
  @RB Plain.constants ≠ @SP Plain.constants
  ∧ @EpicsDevice__init__ Plain.constants "BPM1" (EnabledBool true)
      None (Some "BPM1:SP") = Ok d
  ∧ @EpicsDevice_get_pv_name Plain.constants d "readback"
    = raise_ HandleException "Device BPM1 has no readback PV."
  ∧ @EpicsDevice_get_value Plain.constants _ Plain.control_system d "readback"
      (Plain.state Plain.channels)
    = (raise_ HandleException "Device BPM1 has no readback PV.",
       Plain.state Plain.channels).
Proof.
  assert (Hne : @RB Plain.constants ≠ @SP Plain.constants) by discriminate.
  split; [exact Hne|].
  pose proof (@C5_device_channels_required Plain.constants _
                Plain.control_system Hne "BPM1" (EnabledBool true))
    as (_ & Hsp & _).
  destruct (Hsp "BPM1:SP") as (device & Hinit & Hvalue & Hname).
  injection Hinit as <-. split_and!.
  - reflexivity.
  - exact Hname.
  - exact (Hvalue (Plain.state Plain.channels)).
Defined.

(** ** [PvEnabler] *)

(** The interpreter's law decides [str(int(float(s)))] for a plain
    literal [s], whatever the interpreter. *)
Ltac by_plain_literal :=
  unfold str_int_float, py_float;
  erewrite float_of_str_plain by (vm_compute; reflexivity);
  vm_compute; reflexivity.

Section Literals.
Context `{Interpreter}.

Example str_int_float_1_0 : str_int_float (PStr "1.0") = Ok "1".
Proof. by_plain_literal. Qed.

Example str_int_float_1 : str_int_float (PStr "1") = Ok "1".
Proof. by_plain_literal. Qed.

Example str_int_float_2 : str_int_float (PStr "2") = Ok "2".
Proof. by_plain_literal. Qed.

(** The conversion goes through binary64: the nearest float to this
    literal is [1.0], which an exact decimal truncation would not give. *)
Example str_int_float_rounds :
  str_int_float (PStr "0.99999999999999999999") = Ok "1".
Proof. by_plain_literal. Qed.

Example str_int_float_truncates :
  str_int_float (PStr " -2.9e0") = Ok "-2"
  ∧ str_int_float (PFloat (S754_finite false 7 (-1))) = Ok "3"
  ∧ str_int_float (PInt 3) = Ok "3".
Proof. split_and!; [by_plain_literal|vm_compute; reflexivity..]. Qed.

Example str_int_float_raises :
  to_option (str_int_float (PStr "nan")) = None
  ∧ to_option (str_int_float (PStr "-Infinity")) = None
  ∧ to_option (str_int_float PNone) = None.
Proof. split_and!; [by_plain_literal..|vm_compute; reflexivity]. Qed.

End Literals.

Section Enabler.
Context `{Interpreter} `{ControlSystem W}.

(** One evaluation: one [get] on the channel, then the comparison of the
    stored text with the text of the value read. *)
Lemma PvEnabler__bool__run (self : PvEnabler.t) (st : State W) :
  PvEnabler__bool__ self st =
  (let? pv_value := (cs_get (PvEnabler._pv self) (world st)).1 in
   let? current := str_int_float pv_value in
   Ok (String.eqb (PvEnabler._enabled_value self) current),
   mkState (cs_get (PvEnabler._pv self) (world st)).2
     (calls st ++ [CsGet (PvEnabler._pv self)]) (stdout st)).
Proof.
  unfold PvEnabler__bool__, PvEnabler__nonzero__, bind, call, lift, ret.
  destruct (cs_get (PvEnabler._pv self) (world st)) as [[v|e] w]; simpl;
    [|done].
  by destruct (str_int_float v).
Qed.

(** C4: a [PvEnabler] stores [str(int(float(e)))] of its enabled-value
    [e]; each evaluation as a boolean issues one [get] on its channel, in
    the world as it is then, and returns whether [str(int(float(v)))] of
    the value [v] just read is that stored text, so it is true exactly when
    the two normalised texts are equal; two evaluations in a row read
    twice, and the second answers for the second value.  A channel value
    ["1.0"] with enabled-value ["1"] gives true, a channel value ["2"] with
    enabled-value ["1"] gives false. *)
Theorem C4_enabler_fresh_normalised_comparison :
  ∀ (pv : string) (e : PyVal),
    (* construction *)
    PvEnabler__init__ pv e
    = (let? enabled := str_int_float e in Ok (PvEnabler.mk pv enabled))
    (* one evaluation, on the value read now *)
    ∧ (∀ self (st : State W) v w,
         PvEnabler__init__ pv e = Ok self →
         cs_get pv (world st) = (Ok v, w) →
         (PvEnabler__bool__ self st).2
         = mkState w (calls st ++ [CsGet pv]) (stdout st)
         ∧ (PvEnabler__bool__ self st).1
           = (let? current := str_int_float v in
              Ok (bool_decide (str_int_float e = Ok current)))
         ∧ (∀ b, (PvEnabler__bool__ self st).1 = Ok b →
                 (b = true ↔ str_int_float v = str_int_float e)))
    (* two evaluations: two reads, the second result is for the second read *)
    ∧ (∀ self (st st1 : State W) b1 v2 w2,
         PvEnabler__init__ pv e = Ok self →
         PvEnabler__bool__ self st = (Ok b1, st1) →
         cs_get pv (world st1) = (Ok v2, w2) →
         PvEnabler__bool__ self st1
         = (let? current := str_int_float v2 in
            Ok (bool_decide (str_int_float e = Ok current)),
            mkState w2 (calls st ++ [CsGet pv; CsGet pv]) (stdout st)))
    (* the two examples *)
    ∧ PvEnabler__init__ pv (PStr "1") = Ok (PvEnabler.mk pv "1")
    ∧ (∀ (st : State W) w,
         cs_get pv (world st) = (Ok (PStr "1.0"), w) →
         (PvEnabler__bool__ (PvEnabler.mk pv "1") st).1 = Ok true)
    ∧ (∀ (st : State W) w,
         cs_get pv (world st) = (Ok (PStr "2"), w) →
         (PvEnabler__bool__ (PvEnabler.mk pv "1") st).1 = Ok false).
Proof.
  intros pv e.
  assert (Hrun : ∀ self (st : State W) v w,
            PvEnabler__init__ pv e = Ok self →
            cs_get pv (world st) = (Ok v, w) →
            PvEnabler__bool__ self st
            = (let? current := str_int_float v in
               Ok (bool_decide (str_int_float e = Ok current)),
               mkState w (calls st ++ [CsGet pv]) (stdout st))).
  { intros self st v w Hinit Hget. rewrite PvEnabler__bool__run.
    unfold PvEnabler__init__ in Hinit.
    destruct (str_int_float e) as [enabled|x] eqn:He; [|done].
    injection Hinit as <-. simpl. rewrite Hget. simpl.
    destruct (str_int_float v) as [current|x]; simpl; [|done].
    do 2 f_equal. destruct (String.eqb_spec enabled current) as [->|Hne].
    - by rewrite bool_decide_eq_true_2.
    - rewrite bool_decide_eq_false_2; [done|]. by intros [= ->]. }
  split_and!.
  - reflexivity.
  - intros self st v w Hinit Hget. rewrite (Hrun _ _ _ _ Hinit Hget).
    split_and!; [done..|]. simpl. intros b Hb.
    destruct (str_int_float v) as [current|x]; simpl in Hb; [|done].
    injection Hb as <-. rewrite bool_decide_eq_true. split; congruence.
  - intros self st st1 b1 v2 w2 Hinit Hfirst Hget.
    rewrite (Hrun _ _ _ _ Hinit Hget). f_equal.
    rewrite PvEnabler__bool__run in Hfirst. injection Hfirst as _ <-. simpl.
    unfold PvEnabler__init__ in Hinit.
    destruct (str_int_float e); [|done]. injection Hinit as <-. simpl.
    by rewrite <- app_assoc.
  - unfold PvEnabler__init__. by rewrite str_int_float_1.
  - intros st w Hget. rewrite PvEnabler__bool__run. simpl PvEnabler._pv.
    rewrite Hget. cbn [fst rbind]. by rewrite str_int_float_1_0.
  - intros st w Hget. rewrite PvEnabler__bool__run. simpl PvEnabler._pv.
    rewrite Hget. cbn [fst rbind]. by rewrite str_int_float_2.
Qed.

End Enabler.

(** C4 on an interpreter that reads the plain literals and on a control
    system that is a dictionary of channel values: the enabler built for
    the enabled-value ["1"] is true on the channel value ["1.0"] and
    false on ["2"], each after one [get]. *)
Lemma C4_enabler_fresh_normalised_comparison_witness :
  let enabler := PvEnabler.mk "SR01:ENABLED" "1" in
  let on_ := Plain.state {[ "SR01:ENABLED" := PStr "1.0" ]} in
  let off := Plain.state {[ "SR01:ENABLED" := PStr "2" ]} in
  @PvEnabler__init__ Plain.interpreter "SR01:ENABLED" (PStr "1") = Ok enabler
  ∧ (@PvEnabler__bool__ Plain.interpreter _ Plain.control_system enabler
       on_).1 = Ok true
  ∧ (@PvEnabler__bool__ Plain.interpreter _ Plain.control_system enabler
       off).1 = Ok false
  ∧ calls (@PvEnabler__bool__ Plain.interpreter _ Plain.control_system
             enabler on_).2 = [CsGet "SR01:ENABLED"].
Proof.
  intros enabler on_ off.
  destruct (@C4_enabler_fresh_normalised_comparison Plain.interpreter _
              Plain.control_system "SR01:ENABLED" (PStr "1"))
    as (_ & Hone & _ & Hinit & Htrue & Hfalse).
  split_and!.
  - exact Hinit.
  - exact (Htrue on_ _ eq_refl).
  - exact (Hfalse off _ eq_refl).
  - destruct (Hone enabler on_ (PStr "1.0") _ Hinit eq_refl) as (-> & _).
    reflexivity.
Defined.

(** The two examples on a control system that is a dictionary of channel
    values, and a change of the channel seen by the next evaluation. *)
Example PvEnabler_runs :
  let enabler := PvEnabler.mk "SR01:ENABLED" "1" in
  @PvEnabler__init__ Plain.interpreter "SR01:ENABLED" (PStr "1") = Ok enabler
  ∧ (@PvEnabler__bool__ Plain.interpreter _ Plain.control_system enabler
       (Plain.state {[ "SR01:ENABLED" := PStr "1.0" ]})).1 = Ok true
  ∧ (@PvEnabler__bool__ Plain.interpreter _ Plain.control_system enabler
       (Plain.state {[ "SR01:ENABLED" := PStr "2" ]})).1 = Ok false
  ∧ (bind (@PvEnabler__bool__ Plain.interpreter _ Plain.control_system enabler)
       (λ b1, bind (call (CsPut "SR01:ENABLED" (PInt 0))
                      (@cs_put _ Plain.control_system "SR01:ENABLED" (PInt 0)))
       (λ _, bind (@PvEnabler__bool__ Plain.interpreter _ Plain.control_system
                     enabler)
       (λ b2, ret (b1, b2))))
       (Plain.state {[ "SR01:ENABLED" := PFloat (S754_finite false 3 (-1)) ]})).1
    = Ok (true, false).
Proof. split_and!; vm_compute; reflexivity. Qed.

(** ** [Lattice.get_value], [Lattice.set_value] *)

Section Wrapping.
Context `{ManagerOps W} `{ObjectText}.

(** What the manager returns, and any error of another class, passes
    through the lattice as it is. *)
Lemma Lattice_get_value_passes (self : Lattice.t)
  (field handle units data_source : string) (st : State W) r w :
  DataSourceManager_get_value (Lattice._data_source_manager self)
    field handle units data_source (world st) = (r, w) →
  match r with
  | Ok _ => True
  | Raise e =>
      exc_kind e ≠ DataSourceException ∧ exc_kind e ≠ FieldException
  end →
  Lattice_get_value self field handle units data_source st
  = (r, mkState w (calls st ++ [ManagerGetValue field handle units data_source])
          (stdout st)).
Proof.
  intros Hm Hr. unfold Lattice_get_value, try_exceptM, call. rewrite Hm.
  destruct r as [v|e]; [done|]. destruct Hr as [H1 H2].
  by destruct (exc_kind e).
Qed.

(** C7: when the manager of the lattice raises a [DataSourceException] or
    a [FieldException] inside [get_value] or [set_value], the lattice
    raises an error of the same class whose description is its own: it
    names the lattice and the data source asked for, or the lattice and
    the field.  What the manager did before it raised stays done. *)
Theorem C7_lattice_redescribes_manager_errors :
  ∀ (self : Lattice.t) (field handle units data_source : string)
    (value : PyVal) (st : State W) (e : Exc) (w : W),
    exc_kind e = DataSourceException ∨ exc_kind e = FieldException →
    (DataSourceManager_get_value (Lattice._data_source_manager self)
       field handle units data_source (world st) = (Raise e, w) →
     Lattice_get_value self field handle units data_source st
     = (Raise (mkExc (exc_kind e)
                 (described self field data_source (exc_kind e))),
        mkState w
          (calls st ++ [ManagerGetValue field handle units data_source])
          (stdout st)))
    ∧ (DataSourceManager_set_value (Lattice._data_source_manager self)
         field value handle units data_source (world st) = (Raise e, w) →
       Lattice_set_value self field value handle units data_source st
       = (Raise (mkExc (exc_kind e)
                   (described self field data_source (exc_kind e))),
          mkState w
            (calls st
             ++ [ManagerSetValue field value handle units data_source])
            (stdout st)))
    ∧ described self field data_source DataSourceException
      = "No data source " +:+ data_source +:+ " on lattice "
        +:+ Lattice_text self +:+ "."
    ∧ described self field data_source FieldException
      = "Lattice " +:+ Lattice_text self +:+ " does not have field "
        +:+ field +:+ ".".
Proof.
  intros self field handle units data_source value st e w Hkind.
  split_and!; [| |reflexivity..].
  - intros Hm. unfold Lattice_get_value, try_exceptM, call. rewrite Hm.
    by destruct Hkind as [-> | ->].
  - intros Hm. unfold Lattice_set_value, try_exceptM, call. rewrite Hm.
    by destruct Hkind as [-> | ->].
Qed.

End Wrapping.

Lemma C7_lattice_redescribes_manager_errors_witness :
  let self := Lattice.mk "SR" [] Plain.bare_manager in
  exc_kind (mkExc DataSourceException "No data source.") = DataSourceException
  ∧ @Lattice_get_value _ Plain.managers Plain.object_text self
      "x" "readback" "default" "live" (Plain.state ∅)
    = (raise_ DataSourceException "No data source live on lattice <Lattice SR>.",
       mkState ∅ [ManagerGetValue "x" "readback" "default" "live"] []).
Proof.
  split; [reflexivity|].
  apply (@C7_lattice_redescribes_manager_errors _ Plain.managers
           Plain.object_text (Lattice.mk "SR" [] Plain.bare_manager)
           "x" "readback" "default" "live" PNone (Plain.state ∅)
           (mkExc DataSourceException "No data source.") ∅).
  - left. reflexivity.
  - reflexivity.
Defined.

(** ** [Lattice.get_element_devices] *)

Section ElementDevices.
Context `{ElementOps W} `{ObjectText}.

Lemma get_element_devices_loop (field : string) (elements : list Element.t)
  (devices : list EpicsDevice.t) (st : State W) :
  (∀ e x, e ∈ elements → Element_get_device e field = Raise x →
          exc_kind x = DataSourceException) →
  for_each elements
    (λ devices element,
       try_exceptM
         (do device <- lift (Element_get_device element field) ;
          ret (devices ++ [device]))
         (λ e, match exc_kind e with
               | DataSourceException =>
                   Some (do _ <- print ("No device for field " +:+ field
                                        +:+ " on element "
                                        +:+ Element_text element +:+ ".") ;
                         ret devices)
               | _ => None
               end))
    devices st
  = (Ok (devices ++ devices_of field elements),
     mkState (world st) (calls st)
       (stdout st ++ map (diagnostic field) (lacking field elements))).
Proof.
  revert devices st.
  induction elements as [|e elements IH]; intros devices st Hsoft.
  - simpl. rewrite !app_nil_r. by destruct st.
  - cbn [for_each]. unfold bind at 1, try_exceptM at 1, bind at 1, lift at 1.
    unfold devices_of, lacking. rewrite filter_cons. cbn [omap list_omap].
    destruct (Element_get_device e field) as [d|x] eqn:Hd.
    + cbn [ret to_option is_Ok]. rewrite IH.
      * rewrite decide_False by done. by rewrite <- app_assoc.
      * intros e' x' He'. apply Hsoft. by right.
    + rewrite (Hsoft e x (list_elem_of_here _ _) Hd).
      cbn [to_option is_Ok]. rewrite decide_True by done.
      unfold bind at 1, print at 1, ret at 1. rewrite IH.
      * cbn [world calls stdout map]. by rewrite <- app_assoc.
      * intros e' x' He'. apply Hsoft. by right.
Qed.

(** C8: when looking up the device of the field fails on a member of the
    family only with a [DataSourceException], as the manager's contract
    has it for a missing device, [get_element_devices] does not raise
    because of it: on a family that has members it completes, returns, in
    lattice order, exactly the devices of the members that define the
    field, and prints one line for each member that does not; it calls no
    collaborator and changes nothing else.  The one error it raises is the
    [ValueError] of [get_elements], for a family with no member. *)
Theorem C8_get_element_devices_skips_missing :
  ∀ (self : Lattice.t) (F field : string) (st : State W),
    (∀ e x, e ∈ family_members self F →
            Element_get_device e field = Raise x →
            exc_kind x = DataSourceException) →
    (family_members self F ≠ [] →
     Lattice_get_element_devices self (Some F) field st
     = (Ok (devices_of field (family_members self F)),
        mkState (world st) (calls st)
          (stdout st
           ++ map (diagnostic field)
                (lacking field (family_members self F)))))
    ∧ (family_members self F = [] →
       Lattice_get_element_devices self (Some F) field st
       = (raise_ ValueError ("No elements in family " +:+ F +:+ "."), st))
    ∧ (∀ d, d ∈ devices_of field (family_members self F) ↔
            ∃ e, e ∈ family_members self F
                 ∧ Element_get_device e field = Ok d)
    ∧ devices_of field (family_members self F)
      = omap (λ e, to_option (Element_get_device e field))
          (family_members self F)
    ∧ (length (devices_of field (family_members self F))
       + length (lacking field (family_members self F))
       = length (family_members self F))%nat.
Proof.
  intros self F field st Hsoft. split_and!.
  - intros Hne.
    unfold Lattice_get_element_devices, bind at 1, lift at 1.
    rewrite get_elements_family. rewrite bool_decide_eq_false_2 by done.
    by rewrite get_element_devices_loop.
  - intros Hnil.
    unfold Lattice_get_element_devices, bind at 1, lift at 1.
    rewrite get_elements_family. by rewrite bool_decide_eq_true_2.
  - intros d. unfold devices_of. rewrite list_elem_of_omap.
    split; intros (e & He & Hd); exists e; split; try done.
    + by destruct (Element_get_device e field) as [d'|]; simplify_eq/=.
    + by rewrite Hd.
  - reflexivity.
  - clear Hsoft. unfold devices_of, lacking.
    induction (family_members self F) as [|e l IH]; [done|].
    rewrite filter_cons. cbn [omap list_omap].
    destruct (Element_get_device e field); cbn [to_option is_Ok].
    + rewrite decide_False by done. cbn [length]. lia.
    + rewrite decide_True by done. cbn [length]. lia.
Qed.

End ElementDevices.

(** The plain elements fail to give a device only with a
    [DataSourceException]. *)
Lemma Plain_device_of_soft (e : Element.t) (field : string) (x : Exc) :
  Plain.device_of e field = Raise x → exc_kind x = DataSourceException.
Proof.
  unfold Plain.device_of, try_except, DeviceModel_get_device, getitem.
  destruct (DataSourceManager._data_sources _ !! _) as [live|]; simpl.
  - destruct (DeviceModel._devices live !! field); simpl; [done|].
    by intros [= <-].
  - by intros [= <-].
Qed.

Lemma C8_get_element_devices_skips_missing_witness :
  (∀ e x, e ∈ family_members Plain.ring "BPM" →
          Plain.device_of e "x" = Raise x →
          exc_kind x = DataSourceException)
  ∧ family_members Plain.ring "BPM" ≠ []
  ∧ (@Lattice_get_element_devices _ Plain.elements Plain.object_text
       Plain.ring (Some "BPM") "x" (Plain.state ∅))
    = (Ok [Plain.device "BPM1" (Some "BPM1:X") (Some "BPM1:SX");
           Plain.device "BPM3" (Some "BPM3:X") (Some "BPM3:SX")],
       mkState ∅ [] ["No device for field x on element <Element BPM2>."]).
Proof.
  assert (Hne : family_members Plain.ring "BPM" ≠ []) by (by vm_compute).
  split; [exact (λ e x _, Plain_device_of_soft e "x" x)|].
  split; [exact Hne|].
  pose proof (@C8_get_element_devices_skips_missing _ Plain.elements
                Plain.object_text Plain.ring "BPM" "x" (Plain.state ∅)
                (λ e x _, Plain_device_of_soft e "x" x)) as [Hrun _].
  rewrite (Hrun Hne). vm_compute. reflexivity.
Defined.

(** ** [Lattice.set_element_values] *)

Section SetElementValues.
Context `{Constants} `{ElementOps W}.

(** The loop issues the writes of a prefix of the pairs, in order, and
    nothing else; it returns only after the write of the last pair, and it
    raises what the last write it issued raised. *)
Lemma write_loop_prefix (field : string) (pairs : list (Element.t * PyVal))
  (st : State W) :
  ∃ n : nat,
    (n ≤ length pairs)%nat
    ∧ calls (write_loop field pairs st).2
      = calls st ++ map (setpoint_write field) (take n pairs)
    ∧ stdout (write_loop field pairs st).2 = stdout st
    ∧ ((write_loop field pairs st).1 = Ok tt → n = length pairs)
    ∧ (∀ x, (write_loop field pairs st).1 = Raise x →
            ∃ e v w,
              pairs !! pred n = Some (e, v) ∧ (0 < n)%nat
              ∧ (Element_set_value e field v (Some SP) None None w).1
                = Raise x).
Proof.
  revert st. induction pairs as [|[e v] pairs IH]; intros st.
  - exists 0%nat. simpl. rewrite app_nil_r. split_and!; try done.
  - destruct (Element_set_value e field v (Some SP) None None (world st))
      as [[[]|x] w] eqn:Hw.
    + assert (write_loop field ((e, v) :: pairs) st
              = write_loop field pairs
                  (mkState w (calls st ++ [ElementSetValue e field v
                                             (Some SP) None None])
                     (stdout st))) as ->.
      { unfold write_loop. cbn [for_each]. unfold bind at 1, call at 1.
        by rewrite Hw. }
      destruct (IH (mkState w (calls st ++ [ElementSetValue e field v
                                             (Some SP) None None])
                      (stdout st)))
        as (n & Hn & Hcalls & Hout & Hok & Hraise).
      exists (S n). split_and!.
      * simpl. lia.
      * rewrite Hcalls. simpl. by rewrite <- app_assoc.
      * by rewrite Hout.
      * intros Hr. simpl. f_equal. by apply Hok.
      * intros x Hx. destruct (Hraise x Hx) as (e' & v' & w' & Hl & Hpos & Hx').
        exists e', v', w'. split_and!; [|lia|done].
        destruct n; [lia|]. done.
    + assert (write_loop field ((e, v) :: pairs) st
              = (Raise x,
                 mkState w (calls st ++ [ElementSetValue e field v
                                           (Some SP) None None])
                   (stdout st))) as ->.
      { unfold write_loop. cbn [for_each]. unfold bind at 1, call at 1.
        by rewrite Hw. }
      exists 1%nat. simpl. split_and!; try done; try lia.
      intros x' [= ->]. exists e, v, (world st). split_and!; [done|lia|].
      by rewrite Hw.
Qed.

(** When every write returns, the loop returns and has issued one write
    per pair, in order. *)
Lemma write_loop_all (field : string) (pairs : list (Element.t * PyVal))
  (st : State W) :
  (∀ e v w, (e, v) ∈ pairs →
            (Element_set_value e field v (Some SP) None None w).1 = Ok tt) →
  (write_loop field pairs st).1 = Ok tt
  ∧ calls (write_loop field pairs st).2
    = calls st ++ map (setpoint_write field) pairs.
Proof.
  intros Hall.
  destruct (write_loop_prefix field pairs st)
    as (n & Hn & Hcalls & _ & Hok & Hraise).
  destruct ((write_loop field pairs st).1) as [[]|x] eqn:Hr.
  - rewrite Hcalls, (Hok eq_refl). by rewrite firstn_all.
  - destruct (Hraise x eq_refl) as (e & v & w & Hl & _ & Hx).
    apply list_elem_of_lookup_2 in Hl. by rewrite (Hall e v w Hl) in Hx.
Qed.

(** One turn of the loop: the write of the first pair, then the rest, or
    the error of that write. *)
Lemma write_loop_step (field : string) (e : Element.t) (v : PyVal)
  (pairs : list (Element.t * PyVal)) (st : State W) :
  write_loop field ((e, v) :: pairs) st =
  match Element_set_value e field v (Some SP) None None (world st) with
  | (Ok _, w) =>
      write_loop field pairs
        (mkState w (calls st ++ [setpoint_write field (e, v)]) (stdout st))
  | (Raise x, w) =>
      (Raise x,
       mkState w (calls st ++ [setpoint_write field (e, v)]) (stdout st))
  end.
Proof.
  unfold write_loop. cbn [for_each]. unfold bind at 1, call at 1.
  by destruct (Element_set_value e field v (Some SP) None None (world st))
    as [[[]|x] w].
Qed.

(** Past the pairs whose writes return, the loop goes on with the rest,
    in the world those writes left. *)
Lemma write_loop_done (field : string) (done rest : list (Element.t * PyVal))
  (st : State W) (w1 : W) :
  write_all field done (world st) = Some w1 →
  write_loop field (done ++ rest) st
  = write_loop field rest
      (mkState w1 (calls st ++ map (setpoint_write field) done) (stdout st)).
Proof.
  revert st. induction done as [|[e v] done IH]; intros st Hdone.
  - simpl in *. injection Hdone as <-. rewrite app_nil_r. by destruct st.
  - simpl in Hdone. rewrite <- app_comm_cons, write_loop_step.
    destruct (Element_set_value e field v (Some SP) None None (world st))
      as [[[]|x] w]; [|done].
    rewrite (IH (mkState w (calls st ++ [setpoint_write field (e, v)])
                   (stdout st)) Hdone).
    simpl. by rewrite <- app_assoc.
Qed.

(** When the writes do not all return, one of them is the first to
    raise. *)
Lemma write_all_None (field : string) (pairs : list (Element.t * PyVal))
  (w : W) :
  write_all field pairs w = None →
  ∃ done e v rest w1 x w2,
    pairs = done ++ (e, v) :: rest
    ∧ write_all field done w = Some w1
    ∧ Element_set_value e field v (Some SP) None None w1 = (Raise x, w2).
Proof.
  revert w. induction pairs as [|[e v] pairs IH]; intros w Hnone; [done|].
  simpl in Hnone.
  destruct (Element_set_value e field v (Some SP) None None w)
    as [[[]|x] w'] eqn:Hw.
  - destruct (IH w' Hnone) as (done & e' & v' & rest & w1 & x & w2
                               & -> & Hdone & Hx).
    exists ((e, v) :: done), e', v', rest, w1, x, w2. split_and!; [done| |done].
    simpl. by rewrite Hw.
  - by exists [], e, v, pairs, w, x, w'.
Qed.

Lemma set_element_values_run (self : Lattice.t) (F field : string)
  (values : list PyVal) (st : State W) :
  Lattice_set_element_values self (Some F) field values st =
  if bool_decide (family_members self F = []) then
    (raise_ ValueError ("No elements in family " +:+ F +:+ "."), st)
  else if bool_decide (length (family_members self F) = length values) then
    write_loop field (zip (family_members self F) values) st
  else (raise_ IndexError length_message, st).
Proof.
  unfold Lattice_set_element_values, bind at 1, lift at 1.
  rewrite get_elements_family.
  case_bool_decide; [done|].
  destruct (Nat.eqb_spec (length (family_members self F)) (length values)).
  - by rewrite bool_decide_eq_true_2.
  - by rewrite bool_decide_eq_false_2.
Qed.

(** C2, as the code has it: for a family with at least one member, values
    of another length raise an [IndexError] before any write, and nothing
    has changed; with values of the same length the call issues setpoint
    writes (handle [SP], neither units nor data source) in lattice order,
    the i-th value to the i-th member, each in the world the one before
    left, and stops at the first write that raises, with that very error
    and in the world that write left: when every write returns the call
    returns after exactly one write per member, and when the writes
    before some pair return and the write of that pair raises, the call
    raises that error after the writes up to and including that one and
    no other; one of the two is always the case.  For a family with no
    member the call raises the [ValueError] of [get_elements], whatever
    the values, before any write. *)
Theorem C2_set_element_values_checked_then_written :
  ∀ (self : Lattice.t) (F field : string) (values : list PyVal)
    (st : State W),
    let members := family_members self F in
    let pairs := zip members values in
    let run := Lattice_set_element_values self (Some F) field values st in
    (members = [] →
     run = (raise_ ValueError ("No elements in family " +:+ F +:+ "."), st))
    ∧ (members ≠ [] → length values ≠ length members →
       run = (raise_ IndexError length_message, st))
    ∧ (members ≠ [] → length values = length members →
       (* the i-th value goes with the i-th member *)
       (∀ i e v, pairs !! i = Some (e, v)
                 ↔ members !! i = Some e ∧ values !! i = Some v)
       (* every write returns: one write per member, then the return *)
       ∧ (∀ w', write_all field pairs (world st) = Some w' →
            run = (Ok tt,
                   mkState w'
                     (calls st ++ map (setpoint_write field) pairs)
                     (stdout st)))
       (* a first write raises: its error, and no write after it *)
       ∧ (∀ done e v rest w1 x w2,
            pairs = done ++ (e, v) :: rest →
            write_all field done (world st) = Some w1 →
            Element_set_value e field v (Some SP) None None w1
            = (Raise x, w2) →
            run = (Raise x,
                   mkState w2
                     (calls st
                      ++ map (setpoint_write field) (done ++ [(e, v)]))
                     (stdout st)))
       (* there is no third case *)
       ∧ (write_all field pairs (world st) = None →
          ∃ done e v rest w1 x w2,
            pairs = done ++ (e, v) :: rest
            ∧ write_all field done (world st) = Some w1
            ∧ Element_set_value e field v (Some SP) None None w1
              = (Raise x, w2))
       (* in any case the writes issued are a prefix of the pairs *)
       ∧ (∃ n : nat,
          (n ≤ length members)%nat
          ∧ calls run.2
            = calls st
              ++ map (setpoint_write field) (take n pairs)
          ∧ stdout run.2 = stdout st
          ∧ (run.1 = Ok tt → n = length members)
          ∧ (∀ x, run.1 = Raise x →
                  ∃ e v w,
                    members !! pred n = Some e ∧ values !! pred n = Some v
                    ∧ (Element_set_value e field v (Some SP) None None w).1
                      = Raise x))
       ∧ ((∀ e v w, (e, v) ∈ pairs →
                    (Element_set_value e field v (Some SP) None None w).1
                    = Ok tt) →
          run.1 = Ok tt
          ∧ calls run.2
            = calls st ++ map (setpoint_write field) pairs
          ∧ ∀ i e v,
              members !! i = Some e → values !! i = Some v →
              calls run.2 !! (length (calls st) + i)%nat
              = Some (ElementSetValue e field v (Some SP) None None))).
Proof.
  intros self F field values st members pairs run. subst run pairs members.
  rewrite set_element_values_run. split_and!.
  - intros ->. by rewrite bool_decide_eq_true_2.
  - intros Hne Hlen. rewrite bool_decide_eq_false_2 by done.
    by rewrite bool_decide_eq_false_2.
  - intros Hne Hlen. rewrite bool_decide_eq_false_2 by done.
    rewrite bool_decide_eq_true_2 by done. split_and!.
    + intros i e v. rewrite lookup_zip_with_Some. split.
      * by intros (e' & v' & [= <- <-] & He & Hv).
      * intros [He Hv]. by exists e, v.
    + intros w' Hall.
      rewrite <- (app_nil_r (zip (family_members self F) values)) at 1.
      by rewrite (write_loop_done _ _ _ _ _ Hall).
    + intros done e v rest w1 x w2 -> Hdone Hx.
      rewrite (write_loop_done _ _ _ _ _ Hdone), write_loop_step.
      cbn [world calls stdout]. rewrite Hx, map_app. simpl.
      by rewrite <- app_assoc.
    + apply write_all_None.
    + destruct (write_loop_prefix field (zip (family_members self F) values)
                  st) as (n & Hn & Hcalls & Hout & Hok & Hraise).
      rewrite length_zip_with, <- Hlen, Nat.min_id in Hn, Hok.
      exists n. split_and!.
      * lia.
      * exact Hcalls.
      * exact Hout.
      * intros Hr. rewrite (Hok Hr). lia.
      * intros x Hx. destruct (Hraise x Hx) as (e & v & w & Hl & _ & Hx').
        exists e, v, w. apply lookup_zip_with_Some in Hl
          as (e' & v' & [= <- <-] & He & Hv). done.
    + intros Hall.
      destruct (write_loop_all field (zip (family_members self F) values)
                  st Hall) as [Hr Hcalls].
      split_and!; [done..|].
      intros i e v He Hv. rewrite Hcalls.
      rewrite lookup_app_r by lia.
      replace (length (calls st) + i - length (calls st))%nat with i by lia.
      rewrite list_lookup_fmap.
      assert (zip (family_members self F) values !! i = Some (e, v)) as ->;
        [|done].
      apply lookup_zip_with_Some. by exists e, v.
Qed.

End SetElementValues.

(** C2 does not hold as the specification states it, in two ways, both
    seen on the plain ring.  The family [QUAD] has no member and one value
    is given: the lengths differ, and the error is the [ValueError] of
    [get_elements], not an [IndexError].  The family [BPM] has three
    members and three values are given, but the second member has no
    device for [x]: its write raises, the third member is never written,
    and the first stays written. *)
Lemma C2_counterexample :
  let run_quad :=
    @Lattice_set_element_values Plain.constants _ Plain.elements
      Plain.ring (Some "QUAD") "x" [PInt 1] (Plain.state Plain.channels) in
  let run_bpm :=
    @Lattice_set_element_values Plain.constants _ Plain.elements
      Plain.ring (Some "BPM") "x" [PInt 4; PInt 5; PInt 6]
      (Plain.state Plain.channels) in
  (length (family_members Plain.ring "QUAD") = 0%nat
   ∧ run_quad
     = (raise_ ValueError "No elements in family QUAD.",
        Plain.state Plain.channels))
  ∧ (length (family_members Plain.ring "BPM") = 3%nat
     ∧ run_bpm.1 = raise_ DataSourceException "No device for field x."
     ∧ calls run_bpm.2
       = [ElementSetValue Plain.bpm1 "x" (PInt 4) (Some "setpoint") None None;
          ElementSetValue Plain.bpm2 "x" (PInt 5) (Some "setpoint") None None]
     ∧ world run_bpm.2 !! "BPM1:SX" = Some (PInt 4)
     ∧ world run_bpm.2 !! "BPM3:SX" = Some (PInt 30)).
Proof. split_and!; vm_compute; reflexivity. Qed.

(** On the ring without the second monitor the three checks pass and each
    member is written once. *)
Example set_element_values_runs :
  let run :=
    @Lattice_set_element_values Plain.constants _ Plain.elements
      Plain.ring_x (Some "BPM") "x" [PInt 4; PInt 6]
      (Plain.state Plain.channels) in
  run.1 = Ok tt
  ∧ calls run.2
    = [ElementSetValue Plain.bpm1 "x" (PInt 4) (Some "setpoint") None None;
       ElementSetValue Plain.bpm3 "x" (PInt 6) (Some "setpoint") None None]
  ∧ world run.2 !! "BPM1:SX" = Some (PInt 4)
  ∧ world run.2 !! "BPM3:SX" = Some (PInt 6)
  ∧ @Lattice_set_element_values Plain.constants _ Plain.elements
      Plain.ring_x (Some "BPM") "x" [PInt 4] (Plain.state Plain.channels)
    = (raise_ IndexError
         "Number of elements in given array must be equal to the number of elements in the family.",
       Plain.state Plain.channels).
Proof. split_and!; vm_compute; reflexivity. Qed.

(** ** [EpicsElement.get_pv_name], [EpicsLattice.get_pv_names],
    [EpicsLattice.get_values] *)

Section GetValues.
Context `{Constants} `{ObjectText} `{ControlSystem W} `{Numpy}.

(** How an element resolves the channel name of a field and a handle: a
    missing live data source or a missing device for the field is a
    [DataSourceException] that names the element; otherwise the answer,
    or the [HandleException], is the device's. *)
Lemma EpicsElement_get_pv_name_run (self : Element.t) (field handle : string) :
  EpicsElement_get_pv_name self field handle =
  match DataSourceManager._data_sources (Element._data_source_manager self)
        !! LIVE with
  | Some live =>
      match DeviceModel._devices live !! field with
      | Some device => EpicsDevice_get_pv_name device handle
      | None =>
          raise_ DataSourceException
            ("No data source for field " +:+ field +:+ " on element "
             +:+ Element_text self +:+ ".")
      end
  | None =>
      raise_ DataSourceException
        ("No data source for field " +:+ field +:+ " on element "
         +:+ Element_text self +:+ ".")
  end.
Proof.
  unfold EpicsElement_get_pv_name, try_except, DeviceModel_get_device, getitem.
  destruct (DataSourceManager._data_sources _ !! LIVE) as [live|]; [|done].
  simpl. destruct (DeviceModel._devices live !! field) as [device|]; [|done].
  simpl. unfold EpicsDevice_get_pv_name.
  destruct (String.eqb handle RB && truthy (EpicsDevice.rb_pv device));
    [done|].
  by destruct (String.eqb handle SP && truthy (EpicsDevice.sp_pv device)).
Qed.

(** The loop of [get_pv_names] returns the names the elements resolve, in
    order, when they all resolve. *)
Lemma pv_names_loop_all (field handle : string) (elements : list Element.t)
  (names pv_names : list string) :
  Forall2 (λ e n, EpicsElement_get_pv_name e field handle = Ok n)
    elements names →
  pv_names_loop field handle elements pv_names = Ok (pv_names ++ names).
Proof.
  intros Hall. revert pv_names.
  induction Hall as [|e n elements names He _ IH]; intros pv_names.
  - by rewrite app_nil_r.
  - unfold pv_names_loop. cbn [for_each_r]. rewrite He. cbn [rbind].
    fold (pv_names_loop field handle elements (pv_names ++ [n])).
    rewrite IH. by rewrite <- app_assoc.
Qed.

(** It raises the error of the first element that does not resolve. *)
Lemma pv_names_loop_first (field handle : string)
  (resolved rest : list Element.t) (e : Element.t) (x : Exc)
  (names pv_names : list string) :
  Forall2 (λ e n, EpicsElement_get_pv_name e field handle = Ok n)
    resolved names →
  EpicsElement_get_pv_name e field handle = Raise x →
  pv_names_loop field handle (resolved ++ e :: rest) pv_names = Raise x.
Proof.
  intros Hall He. revert pv_names.
  induction Hall as [|e' n resolved names He' _ IH]; intros pv_names.
  - unfold pv_names_loop. cbn [app for_each_r]. by rewrite He.
  - unfold pv_names_loop. cbn [app for_each_r]. rewrite He'. cbn [rbind].
    apply IH.
Qed.

Lemma get_pv_names_run (self : Lattice.t) (F field handle : string) :
  EpicsLattice_get_pv_names self (Some F) field handle =
  if bool_decide (family_members self F = []) then
    raise_ ValueError ("No elements in family " +:+ F +:+ ".")
  else pv_names_loop field handle (family_members self F) [].
Proof.
  unfold EpicsLattice_get_pv_names. rewrite get_elements_family.
  by case_bool_decide.
Qed.

(** [get_values] is [get_pv_names], then one batched [get] on the names. *)
Lemma get_values_run (self : Lattice.t) (family : option string)
  (field handle : string) (dtype_ : option dtype) (st : State W) :
  EpicsLattice_get_values self family field handle dtype_ st =
  match EpicsLattice_get_pv_names self family field handle with
  | Ok names =>
      (let? values := (cs_get_many names (world st)).1 in
       coerced dtype_ values,
       mkState (cs_get_many names (world st)).2
         (calls st ++ [CsGetMany names]) (stdout st))
  | Raise x => (Raise x, st)
  end.
Proof.
  unfold EpicsLattice_get_values, bind at 1, lift at 1.
  destruct (EpicsLattice_get_pv_names self family field handle)
    as [names|x]; [|done].
  unfold bind at 1, call at 1.
  destruct (cs_get_many names (world st)) as [[values|x] w]; [|done].
  simpl. destruct dtype_ as [d|]; [|done].
  unfold bind, lift, ret. simpl. by destruct (numpy_array values d).
Qed.

(** C6, as the code has it: for a family with at least one member, when
    every member resolves a channel name for the field and the handle,
    [get_values] resolves these names, one per member in lattice order,
    issues one batched [get] on them and no other call, and returns what
    that call returns, coerced when a dtype is given; with an
    order-preserving control system the i-th value is the one of the i-th
    member's channel.  When a member does not resolve, the error of the
    first such member is raised and no call is issued. *)
Theorem C6_get_values_one_batched_read :
  ∀ (self : Lattice.t) (F field handle : string) (dtype_ : option dtype)
    (st : State W),
    let members := family_members self F in
    let run := EpicsLattice_get_values self (Some F) field handle dtype_ st in
    members ≠ [] →
    (∀ names : list string,
       Forall2 (λ e n, EpicsElement_get_pv_name e field handle = Ok n)
         members names →
       length names = length members
       ∧ EpicsLattice_get_pv_names self (Some F) field handle = Ok names
       ∧ run
         = (let? values := (cs_get_many names (world st)).1 in
            coerced dtype_ values,
            mkState (cs_get_many names (world st)).2
              (calls st ++ [CsGetMany names]) (stdout st))
       ∧ (order_preserving →
          ∀ values w,
            cs_get_many names (world st) = (Ok values, w) →
            run.1 = coerced dtype_ values
            ∧ length values = length members
            ∧ Forall2 (λ e v, ∃ n, EpicsElement_get_pv_name e field handle = Ok n
                                   ∧ (cs_get n (world st)).1 = Ok v)
                members values))
    ∧ (∀ resolved e rest names x,
         members = resolved ++ e :: rest →
         Forall2 (λ e n, EpicsElement_get_pv_name e field handle = Ok n)
           resolved names →
         EpicsElement_get_pv_name e field handle = Raise x →
         run = (Raise x, st)).
Proof.
  intros self F field handle dtype_ st members run Hne. subst run members.
  rewrite get_values_run, get_pv_names_run.
  rewrite bool_decide_eq_false_2 by done.
  split.
  - intros names Hall. rewrite (pv_names_loop_all _ _ _ _ [] Hall).
    rewrite app_nil_l.
    split_and!.
    + symmetry. by eapply Forall2_length.
    + done.
    + done.
    + intros Hord values w Hget. rewrite Hget. cbn [fst rbind].
      specialize (Hord _ _ _ _ Hget).
      split_and!; [done| |].
      * rewrite <- (Forall2_length _ _ _ Hord). symmetry.
        by eapply Forall2_length.
      * clear Hget Hne. revert values Hord.
        induction Hall as [|e n members names He _ IH]; intros values Hord.
        -- apply Forall2_nil_inv_l in Hord as ->. constructor.
        -- apply Forall2_cons_inv_l in Hord as (v & values' & Hv & Hord & ->).
           constructor; [by exists n|]. by apply IH.
  - intros resolved e rest names x Hmem Hall He. rewrite Hmem.
    by rewrite (pv_names_loop_first _ _ _ _ _ _ _ [] Hall He).
Qed.

End GetValues.

(** The plain control system answers a batched [get] in the order of the
    names. *)
Lemma Plain_batched_get (names : list string) (w : gmap string PyVal)
  (acc values : list PyVal) :
  for_each_r names (λ vs pv, let? v := Plain.read w pv in Ok (vs ++ [v])) acc
  = Ok values →
  ∃ read_values,
    values = acc ++ read_values
    ∧ Forall2 (λ n v, Plain.read w n = Ok v) names read_values.
Proof.
  revert acc. induction names as [|n names IH]; intros acc; simpl.
  - intros [= <-]. exists []. by rewrite app_nil_r.
  - destruct (Plain.read w n) as [v|x] eqn:Hv; simpl; [|done].
    intros Hrest. destruct (IH _ Hrest) as (vs & -> & Hall).
    exists (v :: vs). rewrite <- app_assoc. split; [done|].
    by constructor.
Qed.

Lemma Plain_order_preserving : @order_preserving _ Plain.control_system.
Proof.
  intros names w w' values Hget. simpl in Hget.
  injection Hget as Hloop _.
  destruct (Plain_batched_get _ _ _ _ Hloop) as (vs & -> & Hall).
  exact Hall.
Qed.

Lemma C6_get_values_one_batched_read_witness :
  family_members Plain.ring_x "BPM" ≠ []
  ∧ @EpicsLattice_get_values Plain.constants Plain.object_text _
      Plain.control_system Plain.numpy
      Plain.ring_x (Some "BPM") "x" "readback" None
      (Plain.state Plain.channels)
    = (Ok (@ValueList Plain.numpy [PInt 1; PInt 3]),
       mkState Plain.channels [CsGetMany ["BPM1:X"; "BPM3:X"]] []).
Proof.
  assert (Hne : family_members Plain.ring_x "BPM" ≠ []) by (by vm_compute).
  split; [exact Hne|].
  pose proof (@C6_get_values_one_batched_read Plain.constants
                Plain.object_text _ Plain.control_system Plain.numpy
                Plain.ring_x "BPM" "x" "readback" None
                (Plain.state Plain.channels) Hne) as [Hall _].
  destruct (Hall ["BPM1:X"; "BPM3:X"]) as (_ & _ & Hrun & _).
  - assert (family_members Plain.ring_x "BPM" = [Plain.bpm1; Plain.bpm3])
      as -> by (vm_compute; reflexivity).
    repeat (constructor; [vm_compute; reflexivity|]). constructor.
  - rewrite Hrun. vm_compute. reflexivity.
Defined.

(** C6 does not hold as the specification states it: on the plain ring,
    whose control system is order-preserving, the family [BPM] has three
    members, the second has no device for [x], and [get_values] raises
    the [DataSourceException] of that member; no batched [get] is issued
    and no value is returned. *)
Lemma C6_counterexample :
  let run :=
    @EpicsLattice_get_values Plain.constants Plain.object_text _
      Plain.control_system Plain.numpy
      Plain.ring (Some "BPM") "x" "readback" None
      (Plain.state Plain.channels) in
  @order_preserving _ Plain.control_system
  ∧ Lattice_get_elements Plain.ring (Some "BPM") None
    = Ok [Plain.bpm1; Plain.bpm2; Plain.bpm3]
  ∧ run
    = (raise_ DataSourceException
         "No data source for field x on element <Element BPM2>.",
       Plain.state Plain.channels)
  ∧ calls run.2 = [].
Proof.
  split_and!; [apply Plain_order_preserving | vm_compute; reflexivity..].
Qed.

(** * More of the lattice, the model and the devices *)

(** ** [Lattice.get_elements] on every combination of arguments *)

Lemma get_elements_no_family (self : Lattice.t) (cell : option Z) :
  Lattice_get_elements self None cell =
  if bool_decide (Lattice._lattice self = []) then
    raise_ ValueError "No elements in family None."
  else
    match cell with
    | None => Ok (Lattice._lattice self)
    | Some C =>
        if bool_decide (filter (λ e, Element.cell e = C)
                          (Lattice._lattice self) = []) then
          raise_ ValueError ("No elements in cell " +:+ py_str C +:+ ".")
        else Ok (filter (λ e, Element.cell e = C) (Lattice._lattice self))
    end.
Proof.
  unfold Lattice_get_elements. cbv zeta.
  rewrite (bool_decide_eq_true_2 (None = None)) by done.
  rewrite get_elements_loop_None, !length_eqb_0.
  case_bool_decide as Hl; [done|].
  destruct cell as [C|]; [done|]. by case_bool_decide.
Qed.

(** [get_elements] never returns the empty list. *)
Lemma get_elements_nonempty (self : Lattice.t) (family : option string)
  (cell : option Z) (elements : list Element.t) :
  Lattice_get_elements self family cell = Ok elements → elements ≠ [].
Proof.
  destruct family as [F|].
  - rewrite get_elements_family. case_bool_decide as Hf; [done|].
    destruct cell as [C|].
    + case_bool_decide; [done|]. by intros [= <-].
    + by intros [= <-].
  - rewrite get_elements_no_family. case_bool_decide as Hl; [done|].
    destruct cell as [C|].
    + case_bool_decide; [done|]. by intros [= <-].
    + by intros [= <-].
Qed.

Lemma selects_filter (self : Lattice.t) (family : option string)
  (cell : option Z) :
  filter (λ e, selects family cell e) (Lattice._lattice self) =
  match family, cell with
  | Some F, Some C => cell_members self F C
  | Some F, None => family_members self F
  | None, Some C => filter (λ e, Element.cell e = C) (Lattice._lattice self)
  | None, None => Lattice._lattice self
  end.
Proof.
  unfold selects, cell_members, family_members.
  destruct family as [F|], cell as [C|].
  - rewrite list_filter_filter. apply list_filter_iff. intros e.
    rewrite andb_True, !bool_decide_spec. tauto.
  - apply list_filter_iff. intros e.
    rewrite andb_True, bool_decide_spec. simpl. tauto.
  - apply list_filter_iff. intros e.
    rewrite andb_True, bool_decide_spec. simpl. tauto.
  - induction (Lattice._lattice self) as [|e l IH]; [done|].
    rewrite filter_cons_True by done. by f_equal.
Qed.

(** X3: whatever family and cell are given or omitted, [get_elements]
    returns a list exactly when some element of the lattice is selected by
    both, and the list is then all the selected elements in lattice order,
    so it is never empty; otherwise it raises a [ValueError], and nothing
    else. *)
Theorem X3_get_elements_selection :
  ∀ (self : Lattice.t) (family : option string) (cell : option Z),
    let chosen := filter (λ e, selects family cell e) (Lattice._lattice self) in
    (∀ elements,
       Lattice_get_elements self family cell = Ok elements
       ↔ elements = chosen ∧ chosen ≠ [])
    ∧ (∀ x, Lattice_get_elements self family cell = Raise x →
            exc_kind x = ValueError ∧ chosen = [])
    ∧ chosen `sublist_of` Lattice._lattice self.
Proof.
  intros self family cell chosen. subst chosen.
  split_and!; [| |apply sublist_filter].
  - intros elements. rewrite selects_filter.
    destruct family as [F|].
    + rewrite get_elements_family. destruct cell as [C|].
      * case_bool_decide as Hf.
        -- unfold cell_members. rewrite Hf, filter_nil. (unfold raise_; intuition congruence).
        -- case_bool_decide; (unfold raise_; intuition congruence).
      * case_bool_decide; (unfold raise_; intuition congruence).
    + rewrite get_elements_no_family. destruct cell as [C|].
      * case_bool_decide as Hl.
        -- rewrite Hl, filter_nil. (unfold raise_; intuition congruence).
        -- case_bool_decide; (unfold raise_; intuition congruence).
      * case_bool_decide; (unfold raise_; intuition congruence).
  - intros x. rewrite selects_filter.
    destruct family as [F|].
    + rewrite get_elements_family. destruct cell as [C|].
      * case_bool_decide as Hf.
        -- unfold cell_members. rewrite Hf, filter_nil. by intros [= <-].
        -- case_bool_decide; [by intros [= <-]|done].
      * case_bool_decide; [by intros [= <-]|done].
    + rewrite get_elements_no_family. destruct cell as [C|].
      * case_bool_decide as Hl.
        -- rewrite Hl, filter_nil. by intros [= <-].
        -- case_bool_decide; [by intros [= <-]|done].
      * case_bool_decide; [by intros [= <-]|done].
Qed.

(** ** [Lattice.get_all_families] *)

Lemma all_families_loop (l : list Element.t) (acc : gset string) (F : string) :
  F ∈ foldl (λ families element, families ∪ Element.families element) acc l
  ↔ F ∈ acc ∨ ∃ e, e ∈ l ∧ F ∈ Element.families e.
Proof.
  revert acc. induction l as [|e l IH]; intros acc; simpl.
  - split; [by left|]. intros [?|(e & He & _)]; [done|].
    by apply elem_of_nil in He.
  - rewrite IH, elem_of_union. split.
    + intros [[?|?]|(e' & He' & ?)].
      * by left.
      * right. exists e. split; [left|done].
      * right. exists e'. split; [by right|done].
    + intros [?|(e' & He' & ?)]; [by left; left|].
      apply elem_of_cons in He' as [->|He'].
      * by left; right.
      * right. by exists e'.
Qed.

(** X4: [get_all_families()] is the set of the families that some element
    of the lattice belongs to; these are exactly the families for which
    [get_elements(family)] returns instead of raising; adding an element
    adds its families, and a lattice with no element has none. *)
Theorem X4_get_all_families_are_the_queryable :
  ∀ self : Lattice.t,
    (∀ F, F ∈ Lattice_get_all_families self
          ↔ ∃ e, e ∈ Lattice._lattice self ∧ F ∈ Element.families e)
    ∧ (∀ F, F ∈ Lattice_get_all_families self
            ↔ is_Ok (Lattice_get_elements self (Some F) None) = true)
    ∧ (∀ e, Lattice_get_all_families (Lattice_add_element self e)
            = Lattice_get_all_families self ∪ Element.families e)
    ∧ (∀ name manager,
         Lattice_get_all_families (Lattice__init__ name manager) = ∅).
Proof.
  intros self.
  assert (Hin : ∀ F, F ∈ Lattice_get_all_families self
                     ↔ ∃ e, e ∈ Lattice._lattice self
                            ∧ F ∈ Element.families e).
  { intros F. unfold Lattice_get_all_families. rewrite all_families_loop.
    split; [|by right]. intros [H|H]; [|done]. by apply elem_of_empty in H. }
  split_and!.
  - exact Hin.
  - intros F. rewrite Hin, get_elements_family.
    case_bool_decide as Hf; simpl.
    + split; [|done]. intros (e & He & HF).
      assert (e ∈ family_members self F) as Hmem
        by (by apply list_elem_of_filter).
      rewrite Hf in Hmem. by apply elem_of_nil in Hmem.
    + split; [done|]. intros _.
      destruct (family_members self F) as [|e l] eqn:Hl; [done|].
      assert (e ∈ family_members self F) as Hmem by (rewrite Hl; left).
      apply list_elem_of_filter in Hmem as [? ?]. by exists e.
  - intros e. unfold Lattice_get_all_families, Lattice_add_element. simpl.
    by rewrite foldl_app.
  - reflexivity.
Qed.

(** ** [Lattice.add_element], [Lattice.__len__], [Lattice.__getitem__] *)

Lemma getitem_nonneg (self : Lattice.t) (n : Z) :
  0 ≤ n →
  Lattice__getitem__ self n =
  match Lattice._lattice self !! Z.to_nat n with
  | Some e => Ok e
  | None => raise_ IndexError (OfBuiltin (IndexOutOfRange n))
  end.
Proof.
  intros Hn. unfold Lattice__getitem__. cbv zeta.
  destruct (Z.ltb_spec n 0) as [|_]; [lia|].
  by destruct (Z.ltb_spec n 0); [lia|].
Qed.

Lemma getitem_neg (self : Lattice.t) (n : Z) :
  n < 0 →
  Lattice__getitem__ self n =
  if n + Z.of_nat (length (Lattice._lattice self)) <? 0 then
    raise_ IndexError (OfBuiltin (IndexOutOfRange n))
  else Lattice__getitem__ self (n + Z.of_nat (length (Lattice._lattice self))).
Proof.
  intros Hn.
  destruct (Z.ltb_spec (n + Z.of_nat (length (Lattice._lattice self))) 0)
    as [Hlt|Hge].
  - unfold Lattice__getitem__. cbv zeta.
    destruct (Z.ltb_spec n 0) as [_|]; [|lia].
    by destruct (Z.ltb_spec (n + Z.of_nat (length (Lattice._lattice self))) 0);
      [|lia].
  - rewrite (getitem_nonneg _ _ Hge).
    unfold Lattice__getitem__. cbv zeta.
    destruct (Z.ltb_spec n 0) as [_|]; [|lia].
    destruct (Z.ltb_spec (n + Z.of_nat (length (Lattice._lattice self))) 0);
      [lia|].
    destruct (lookup_lt_is_Some_2 (Lattice._lattice self)
                (Z.to_nat (n + Z.of_nat (length (Lattice._lattice self)))))
      as [e ->]; [lia|done].
Qed.

(** X5: [add_element] appends: the length grows by one, the new element
    is the last one, under the index [len] before the call and under
    [-1], and the elements that were there keep their indices; the name
    and the manager of the lattice are not touched. *)
Theorem X5_add_element_appends :
  ∀ (self : Lattice.t) (e : Element.t),
    let self' := Lattice_add_element self e in
    Lattice__len__ self' = S (Lattice__len__ self)
    ∧ Lattice__getitem__ self' (Z.of_nat (Lattice__len__ self)) = Ok e
    ∧ Lattice__getitem__ self' (-1) = Ok e
    ∧ (∀ n, 0 ≤ n < Z.of_nat (Lattice__len__ self) →
            Lattice__getitem__ self' n = Lattice__getitem__ self n)
    ∧ Lattice.name self' = Lattice.name self
    ∧ Lattice._data_source_manager self' = Lattice._data_source_manager self.
Proof.
  intros self e self'. subst self'.
  assert (Hlast : Lattice__getitem__ (Lattice_add_element self e)
                    (Z.of_nat (Lattice__len__ self)) = Ok e).
  { rewrite getitem_nonneg by lia. unfold Lattice__len__. simpl.
    rewrite Nat2Z.id, lookup_app_r by lia. by rewrite Nat.sub_diag. }
  split_and!.
  - unfold Lattice__len__. simpl. rewrite length_app. simpl. lia.
  - exact Hlast.
  - rewrite getitem_neg by lia. simpl Lattice._lattice.
    rewrite length_app. simpl length.
    destruct (Z.ltb_spec
                (-1 + Z.of_nat (length (Lattice._lattice self) + 1)) 0);
      [lia|].
    rewrite <- Hlast. f_equal. unfold Lattice__len__. lia.
  - intros n Hn. unfold Lattice__len__ in Hn.
    rewrite !getitem_nonneg by lia. simpl.
    by rewrite lookup_app_l by lia.
  - reflexivity.
  - reflexivity.
Qed.

(** X6: [lattice[n]] is defined exactly for [-len <= n < len]; a negative
    index [n] is the element at [n + len], and any other index raises an
    [IndexError]. *)
Theorem X6_getitem_bounds :
  ∀ (self : Lattice.t) (n : Z),
    let len := Z.of_nat (Lattice__len__ self) in
    (is_Ok (Lattice__getitem__ self n) = true ↔ - len ≤ n < len)
    ∧ (0 ≤ n < len →
       Some (Lattice__getitem__ self n)
       = Ok <$> (Lattice._lattice self !! Z.to_nat n))
    ∧ (- len ≤ n < 0 →
       Lattice__getitem__ self n = Lattice__getitem__ self (n + len))
    ∧ (∀ x, Lattice__getitem__ self n = Raise x → exc_kind x = IndexError).
Proof.
  intros self n len. subst len. unfold Lattice__len__.
  set (l := Lattice._lattice self).
  assert (Hnn : ∀ m, 0 ≤ m →
            (is_Ok (Lattice__getitem__ self m) = true
             ↔ m < Z.of_nat (length l))
            ∧ ∀ x, Lattice__getitem__ self m = Raise x →
                   exc_kind x = IndexError).
  { intros m Hm. rewrite getitem_nonneg by done. fold l.
    destruct (l !! Z.to_nat m) eqn:Hl; simpl.
    - apply lookup_lt_Some in Hl. split; [split; [lia|done]|done].
    - apply lookup_ge_None in Hl. split; [split; [done|lia]|].
      by intros x [= <-]. }
  split_and!.
  - destruct (Z.lt_ge_cases n 0) as [Hneg|Hpos].
    + rewrite getitem_neg by done. fold l.
      destruct (Z.ltb_spec (n + Z.of_nat (length l)) 0) as [Hlt|Hge]; simpl.
      * split; [done|lia].
      * rewrite (proj1 (Hnn _ Hge)). lia.
    + rewrite (proj1 (Hnn _ Hpos)). lia.
  - intros Hn. rewrite getitem_nonneg by lia. fold l.
    destruct (l !! Z.to_nat n) eqn:Hl; [done|].
    apply lookup_ge_None in Hl. lia.
  - intros Hn. rewrite getitem_neg by lia. fold l.
    by destruct (Z.ltb_spec (n + Z.of_nat (length l)) 0); [lia|].
  - intros x. destruct (Z.lt_ge_cases n 0) as [Hneg|Hpos].
    + rewrite getitem_neg by done. fold l.
      destruct (Z.ltb_spec (n + Z.of_nat (length l)) 0) as [Hlt|Hge].
      * by intros [= <-].
      * apply (proj2 (Hnn _ Hge)).
    + apply (proj2 (Hnn _ Hpos)).
Qed.

(** ** [Lattice.get_length], [Lattice.get_family_s] *)

Lemma for_each_r_app {S X} (l1 l2 : list X) (body : S → X → result S)
  (acc : S) :
  for_each_r (l1 ++ l2) body acc
  = (let? acc' := for_each_r l1 body acc in for_each_r l2 body acc').
Proof.
  revert acc. induction l1 as [|x l1 IH]; intros acc; simpl; [done|].
  destruct (body acc x); simpl; [apply IH|done].
Qed.

Lemma family_s_loop `{ElementAttributes} (elements : list Element.t)
  (s_positions : list PyVal) :
  foldl (λ s_positions element, s_positions ++ [Element_s element])
    s_positions elements
  = s_positions ++ map Element_s elements.
Proof.
  revert s_positions.
  induction elements as [|e l IH]; intros acc; simpl.
  - by rewrite app_nil_r.
  - rewrite IH. by rewrite <- app_assoc.
Qed.

Section Lengths.
Context `{ElementAttributes}.

(** X7: [get_length()] adds the lengths from the first element to the
    last, starting from the integer [0]: on a lattice with no element it
    is the integer [0], adding an element adds its length to the total
    that was there, and when every length is an integer the result is
    their sum. *)
Theorem X7_get_length_accumulates :
  ∀ self : Lattice.t,
    (∀ name manager, Lattice_get_length (Lattice__init__ name manager)
                     = Ok (PInt 0))
    ∧ (∀ e, Lattice_get_length (Lattice_add_element self e)
            = (let? total := Lattice_get_length self in
               py_add total (Element_length e)))
    ∧ (∀ ns : list Z,
         map Element_length (Lattice._lattice self) = map PInt ns →
         Lattice_get_length self = Ok (PInt (foldr Z.add 0 ns))).
Proof.
  intros self. split_and!.
  - reflexivity.
  - intros e. unfold Lattice_get_length, Lattice_add_element. simpl.
    rewrite for_each_r_app. simpl.
    destruct (for_each_r _ _ _) as [total|x]; simpl; [|done].
    by destruct (py_add total (Element_length e)).
  - intros ns Hns. unfold Lattice_get_length.
    assert (Hloop : ∀ (l : list Element.t) ns acc,
              map Element_length l = map PInt ns →
              for_each_r l
                (λ total_length e, py_add total_length (Element_length e))
                (PInt acc)
              = Ok (PInt (acc + foldr Z.add 0 ns))).
    { clear. intros l. induction l as [|e l IH]; intros [|n ns] acc Hl;
        simplify_eq/=.
      - by rewrite Z.add_0_r.
      - rewrite H0. simpl. rewrite (IH ns (acc + n) H1). do 2 f_equal. lia. }
    by rewrite (Hloop _ ns 0 Hns).
Qed.

(** X8: [get_family_s(family)] is aligned with [get_elements(family)]:
    where that raises, it raises the same error; where that returns, it
    returns as many positions, the i-th being the [s] of the i-th
    element. *)
Theorem X8_get_family_s_aligned :
  ∀ (self : Lattice.t) (family : option string),
    (∀ x, Lattice_get_elements self family None = Raise x →
          Lattice_get_family_s self family = Raise x)
    ∧ (∀ elements,
         Lattice_get_elements self family None = Ok elements →
         ∃ s_positions,
           Lattice_get_family_s self family = Ok s_positions
           ∧ length s_positions = length elements
           ∧ s_positions ≠ []
           ∧ ∀ i e, elements !! i = Some e →
                    s_positions !! i = Some (Element_s e)).
Proof.
  intros self family. unfold Lattice_get_family_s. split.
  - by intros x ->.
  - intros elements Hel. rewrite Hel. simpl.
    rewrite family_s_loop, app_nil_l.
    exists (map Element_s elements). split_and!.
    + done.
    + by rewrite length_map.
    + apply get_elements_nonempty in Hel. by destruct elements.
    + intros i e Hi. by rewrite list_lookup_fmap, Hi.
Qed.

End Lengths.

(** The total length of the plain ring is a float, once one length is. *)
Example get_length_runs :
  @Lattice_get_length Plain.attributes Plain.ring
  = Ok (PFloat Plain.one_and_a_half)
  ∧ @Lattice_get_family_s Plain.attributes Plain.ring (Some "BPM")
    = Ok [PFloat (S754_zero false); PFloat Plain.one_and_a_half;
          PFloat Plain.one_and_a_half].
Proof. split; vm_compute; reflexivity. Qed.

(** ** [Lattice.get_element_values] *)

Section GetElementValues.
Context `{ElementOps W} `{Numpy}.

Lemma read_loop_step (field handle : string) (e : Element.t)
  (elements : list Element.t) (values : list PyVal) (st : State W) :
  read_loop field handle (e :: elements) values st =
  match Element_get_value e field handle (world st) with
  | (Ok v, w) =>
      read_loop field handle elements (values ++ [v])
        (mkState w (calls st ++ [value_read field handle e]) (stdout st))
  | (Raise x, w) =>
      (Raise x,
       mkState w (calls st ++ [value_read field handle e]) (stdout st))
  end.
Proof.
  unfold read_loop. cbn [for_each]. unfold bind at 1, bind at 1, call at 1.
  by destruct (Element_get_value e field handle (world st)) as [[v|x] w].
Qed.

(** The loop issues the reads of a prefix of the elements, in order, and
    nothing else; it returns only after the read of the last element, with
    one value more per element. *)
Lemma read_loop_prefix (field handle : string) (elements : list Element.t)
  (values : list PyVal) (st : State W) :
  ∃ n : nat,
    (n ≤ length elements)%nat
    ∧ calls (read_loop field handle elements values st).2
      = calls st ++ map (value_read field handle) (take n elements)
    ∧ stdout (read_loop field handle elements values st).2 = stdout st
    ∧ (∀ vs, (read_loop field handle elements values st).1 = Ok vs →
             n = length elements
             ∧ length vs = (length values + length elements)%nat).
Proof.
  revert values st. induction elements as [|e elements IH]; intros values st.
  - exists 0%nat. simpl. rewrite app_nil_r. split_and!; try done.
    intros vs [= <-]. split; [done|lia].
  - rewrite read_loop_step.
    destruct (Element_get_value e field handle (world st)) as [[v|x] w].
    + destruct (IH (values ++ [v])
                  (mkState w (calls st ++ [value_read field handle e])
                     (stdout st)))
        as (n & Hn & Hcalls & Hout & Hok).
      exists (S n). split_and!.
      * simpl. lia.
      * rewrite Hcalls. simpl. by rewrite <- app_assoc.
      * by rewrite Hout.
      * intros vs Hvs. destruct (Hok vs Hvs) as [-> Hlen].
        split; [done|]. rewrite Hlen, length_app. simpl. lia.
    + exists 1%nat. simpl. split_and!; try done. lia.
Qed.

(** When every read returns and leaves the world as it is, the loop
    returns the values read, in order, after one read per element. *)
Lemma read_loop_all (field handle : string) (elements : list Element.t)
  (read values : list PyVal) (st : State W) :
  Forall2 (λ e v, Element_get_value e field handle (world st)
                  = (Ok v, world st)) elements read →
  read_loop field handle elements values st
  = (Ok (values ++ read),
     mkState (world st)
       (calls st ++ map (value_read field handle) elements) (stdout st)).
Proof.
  intros Hall. revert read values st Hall.
  induction elements as [|e elements IH]; intros read values st Hall.
  - apply Forall2_nil_inv_l in Hall as ->. simpl.
    rewrite !app_nil_r. by destruct st.
  - apply Forall2_cons_inv_l in Hall as (v & read' & Hv & Hall & ->).
    rewrite read_loop_step, Hv.
    rewrite (IH read' (values ++ [v])
               (mkState (world st) (calls st ++ [value_read field handle e])
                  (stdout st)) Hall).
    simpl. by rewrite <- !app_assoc.
Qed.

(** Past the elements whose reads return, the loop goes on with the rest,
    in the world those reads left and with their values. *)
Lemma read_loop_done (field handle : string) (done rest : list Element.t)
  (values read : list PyVal) (st : State W) (w1 : W) :
  read_all field handle done (world st) = Some (read, w1) →
  read_loop field handle (done ++ rest) values st
  = read_loop field handle rest (values ++ read)
      (mkState w1 (calls st ++ map (value_read field handle) done)
         (stdout st)).
Proof.
  revert values read st.
  induction done as [|e done IH]; intros values read st Hdone.
  - simpl in *. injection Hdone as <- <-. rewrite !app_nil_r.
    by destruct st.
  - simpl in Hdone. rewrite <- app_comm_cons, read_loop_step.
    destruct (Element_get_value e field handle (world st)) as [[v|x] w];
      [|done].
    destruct (read_all field handle done w) as [[read' w'']|] eqn:Hrest;
      [|done].
    injection Hdone as <- <-.
    rewrite (IH (values ++ [v]) read'
               (mkState w (calls st ++ [value_read field handle e])
                  (stdout st)) Hrest).
    simpl. by rewrite <- !app_assoc.
Qed.

(** When the reads do not all return, one of them is the first to
    raise. *)
Lemma read_all_None (field handle : string) (elements : list Element.t)
  (w : W) :
  read_all field handle elements w = None →
  ∃ done e rest read w1 x w2,
    elements = done ++ e :: rest
    ∧ read_all field handle done w = Some (read, w1)
    ∧ Element_get_value e field handle w1 = (Raise x, w2).
Proof.
  revert w. induction elements as [|e elements IH]; intros w Hnone; [done|].
  simpl in Hnone.
  destruct (Element_get_value e field handle w) as [[v|x] w'] eqn:Hw.
  - destruct (read_all field handle elements w') as [[read' w'']|] eqn:Hrest;
      [done|].
    destruct (IH w' Hrest) as (done & e' & rest & read & w1 & x & w2
                               & -> & Hdone & Hx).
    exists (e :: done), e', rest, (v :: read), w1, x, w2.
    split_and!; [done| |done]. simpl. by rewrite Hw, Hdone.
  - by exists [], e, elements, [], w, x, w'.
Qed.

Lemma get_element_values_run (self : Lattice.t) (F field handle : string)
  (dtype_ : option dtype) (st : State W) :
  Lattice_get_element_values self (Some F) field handle dtype_ st =
  if bool_decide (family_members self F = []) then
    (raise_ ValueError ("No elements in family " +:+ F +:+ "."), st)
  else
    match read_loop field handle (family_members self F) [] st with
    | (Ok values, st') => (coerced dtype_ values, st')
    | (Raise x, st') => (Raise x, st')
    end.
Proof.
  unfold Lattice_get_element_values, bind at 1, lift at 1.
  rewrite get_elements_family.
  case_bool_decide; [done|].
  unfold bind at 1. fold (read_loop field handle (family_members self F) []).
  destruct (read_loop field handle (family_members self F) [] st)
    as [[values|x] st']; [|done].
  destruct dtype_ as [d|]; [|done].
  unfold bind, lift, ret. simpl. by destruct (numpy_array values d).
Qed.

(** X9: [get_element_values(F, field, handle)] raises the [ValueError] of
    [get_elements] for a family with no member, before any read.  For a
    family with members it reads the members in lattice order, each in the
    world the read before left, and stops at the first read that raises,
    with that very error: when every read returns, it returns the values
    read, one per member and in order, coerced to an array when a dtype is
    given (or the error of that coercion), after exactly one read per
    member; when the reads before some member return and the read of that
    member raises, it raises that error after the reads up to and
    including that one and no other; one of the two is always the case.
    So the reads issued are a prefix of the members, and all of them when
    it returns. *)
Theorem X9_get_element_values_one_read_per_member :
  ∀ (self : Lattice.t) (F field handle : string) (dtype_ : option dtype)
    (st : State W),
    let members := family_members self F in
    let run :=
      Lattice_get_element_values self (Some F) field handle dtype_ st in
    (members = [] →
     run = (raise_ ValueError ("No elements in family " +:+ F +:+ "."), st))
    (* every read returns *)
    ∧ (members ≠ [] →
       ∀ values w',
         read_all field handle members (world st) = Some (values, w') →
         length values = length members
         ∧ run
           = (coerced dtype_ values,
              mkState w'
                (calls st ++ map (value_read field handle) members)
                (stdout st)))
    (* a first read raises: its error, and no read after it *)
    ∧ (∀ done e rest read w1 x w2,
         members = done ++ e :: rest →
         read_all field handle done (world st) = Some (read, w1) →
         Element_get_value e field handle w1 = (Raise x, w2) →
         run = (Raise x,
                mkState w2
                  (calls st ++ map (value_read field handle) (done ++ [e]))
                  (stdout st)))
    (* there is no third case *)
    ∧ (read_all field handle members (world st) = None →
       ∃ done e rest read w1 x w2,
         members = done ++ e :: rest
         ∧ read_all field handle done (world st) = Some (read, w1)
         ∧ Element_get_value e field handle w1 = (Raise x, w2))
    (* in any case the reads issued are a prefix of the members *)
    ∧ (members ≠ [] →
       ∃ n : nat,
         (n ≤ length members)%nat
         ∧ calls run.2
           = calls st ++ map (value_read field handle) (take n members)
         ∧ stdout run.2 = stdout st
         ∧ (is_Ok run.1 = true → n = length members))
    ∧ (members ≠ [] →
       ∀ values,
         Forall2 (λ e v, Element_get_value e field handle (world st)
                         = (Ok v, world st)) members values →
         length values = length members
         ∧ run
           = (coerced dtype_ values,
              mkState (world st)
                (calls st ++ map (value_read field handle) members)
                (stdout st))).
Proof.
  intros self F field handle dtype_ st members run. subst members run.
  rewrite get_element_values_run. split_and!.
  - intros ->. by rewrite bool_decide_eq_true_2.
  - intros Hne values w' Hall. rewrite bool_decide_eq_false_2 by done.
    split.
    + clear Hne. revert values w' Hall. generalize (world st).
      induction (family_members self F) as [|e l IH]; intros w values w' Hall.
      * by injection Hall as <- <-.
      * simpl in Hall.
        destruct (Element_get_value e field handle w) as [[v|x] w1]; [|done].
        destruct (read_all field handle l w1) as [[read w2]|] eqn:Hl;
          [|done].
        injection Hall as <- <-. simpl. f_equal. by eapply IH.
    + rewrite <- (app_nil_r (family_members self F)) at 1.
      by rewrite (read_loop_done _ _ _ _ _ _ _ _ Hall).
  - intros done e rest read w1 x w2 Hsplit Hdone Hx.
    rewrite bool_decide_eq_false_2 by (rewrite Hsplit; by destruct done).
    rewrite Hsplit, (read_loop_done _ _ _ _ _ _ _ _ Hdone), read_loop_step.
    cbn [world calls stdout]. rewrite Hx, map_app. simpl.
    by rewrite <- app_assoc.
  - apply read_all_None.
  - intros Hne. rewrite bool_decide_eq_false_2 by done.
    destruct (read_loop_prefix field handle (family_members self F) [] st)
      as (n & Hn & Hcalls & Hout & Hok).
    exists n.
    destruct (read_loop field handle (family_members self F) [] st)
      as [[values|x] st']; simpl in *.
    + split_and!; try done. intros _. by destruct (Hok values eq_refl).
    + split_and!; done.
  - intros Hne values Hall. rewrite bool_decide_eq_false_2 by done.
    rewrite (read_loop_all _ _ _ _ [] _ Hall). rewrite app_nil_l.
    split; [|done]. symmetry. by eapply Forall2_length.
Qed.

End GetElementValues.

Example get_element_values_runs :
  @Lattice_get_element_values _ Plain.elements Plain.numpy
    Plain.ring_x (Some "BPM") "x" "readback" None
    (Plain.state Plain.channels)
  = (Ok (@ValueList Plain.numpy [PInt 1; PInt 3]),
     mkState Plain.channels
       [ElementGetValue Plain.bpm1 "x" "readback";
        ElementGetValue Plain.bpm3 "x" "readback"] []).
Proof. vm_compute. reflexivity. Qed.

(** ** [DeviceModel] *)

(** X10: a device added under a field is the one [get_device] returns for
    that field, the devices of the other fields and the units stay, the
    field is added to [get_fields()], and adding twice under one field
    keeps the last device; [get_device] returns exactly for the fields of
    [get_fields()] and raises the [KeyError] of the dict lookup of the
    field for any other; a new model has no field. *)
Theorem X10_device_model_add_then_get :
  ∀ (self : DeviceModel.t) (field : string) (device : EpicsDevice.t),
    let self' := DeviceModel_add_device self field device in
    DeviceModel_get_device self' field = Ok device
    ∧ (∀ f, f ≠ field →
            DeviceModel_get_device self' f = DeviceModel_get_device self f)
    ∧ DeviceModel_get_fields self' = {[field]} ∪ DeviceModel_get_fields self
    ∧ DeviceModel.units self' = DeviceModel.units self
    ∧ (∀ d, DeviceModel_add_device self' field d
            = DeviceModel_add_device self field d)
    ∧ (∀ f, is_Ok (DeviceModel_get_device self f) = true
            ↔ f ∈ DeviceModel_get_fields self)
    ∧ (∀ f, f ∉ DeviceModel_get_fields self →
            DeviceModel_get_device self f
            = raise_ KeyError (OfBuiltin (MissingKey f)))
    ∧ (∀ K : Constants,
         DeviceModel_get_fields (@DeviceModel__init__ K) = ∅).
Proof.
  intros self field device self'. subst self'.
  unfold DeviceModel_get_device, DeviceModel_add_device,
    DeviceModel_get_fields, getitem. simpl.
  split_and!.
  - by rewrite lookup_insert_eq.
  - intros f Hf. by rewrite lookup_insert_ne.
  - by rewrite dom_insert_L.
  - reflexivity.
  - intros d. by rewrite insert_insert_eq.
  - intros f. rewrite elem_of_dom.
    destruct (DeviceModel._devices self !! f); simpl.
    + split; [by eexists|done].
    + split; [done|]. by intros [? ?].
  - intros f Hf. apply not_elem_of_dom in Hf. by rewrite Hf.
  - intros K. unfold DeviceModel__init__. simpl. apply dom_empty_L.
Qed.

Section DeviceModelCalls.
Context `{Constants} `{ControlSystem W}.

(** X11: on a field the model has no device for, [get_pv_name],
    [get_value] and [set_value] of a [DeviceModel] raise the [KeyError] of
    the dict lookup of the field, with no call to the control system and
    nothing printed; once a device is added under a field, the three on
    that field are what that device does, whatever the model held for the
    field before, and on any other field they are what they were. *)
Theorem X11_device_model_missing_field :
  ∀ (self : DeviceModel.t) (field handle : string) (value : PyVal)
    (st : State W),
    (field ∉ DeviceModel_get_fields self →
     DeviceModel_get_pv_name self field handle
     = raise_ KeyError (OfBuiltin (MissingKey field))
     ∧ DeviceModel_get_value self field handle st
       = (raise_ KeyError (OfBuiltin (MissingKey field)), st)
     ∧ DeviceModel_set_value self field value st
       = (raise_ KeyError (OfBuiltin (MissingKey field)), st))
    ∧ (∀ device,
         let self' := DeviceModel_add_device self field device in
         DeviceModel_get_pv_name self' field handle
         = EpicsDevice_get_pv_name device handle
         ∧ DeviceModel_get_value self' field handle st
           = EpicsDevice_get_value device handle st
         ∧ DeviceModel_set_value self' field value st
           = EpicsDevice_set_value device value st
         ∧ ∀ f, f ≠ field →
             DeviceModel_get_pv_name self' f handle
             = DeviceModel_get_pv_name self f handle
             ∧ DeviceModel_get_value self' f handle st
               = DeviceModel_get_value self f handle st
             ∧ DeviceModel_set_value self' f value st
               = DeviceModel_set_value self f value st).
Proof.
  intros self field handle value st.
  unfold DeviceModel_get_pv_name, DeviceModel_get_value,
    DeviceModel_set_value, DeviceModel_add_device, DeviceModel_get_fields,
    getitem, bind, lift.
  split.
  - intros Hf. apply not_elem_of_dom in Hf. by rewrite Hf.
  - intros device. simpl. rewrite lookup_insert_eq. split_and!; [done..|].
    intros f Hf. by rewrite lookup_insert_ne.
Qed.

End DeviceModelCalls.

(** ** [EpicsDevice]: what is read and what is written *)

Section DeviceChannels.
Context `{Constants} `{ControlSystem W}.

Lemma truthy_the (x : option string) :
  truthy x = true → x = Some (the x) ∧ the x ≠ "".
Proof.
  destruct x as [s|]; [|done]. simpl. intros Hs. split; [done|].
  intros ->. done.
Qed.

(** X12: [get_value(handle)] reads exactly the channel that
    [get_pv_name(handle)] names, with one [get] and nothing else, and
    raises what [get_pv_name] raises, before any call, where that raises.
    A name [get_pv_name] returns is never empty and is the readback
    channel for [RB] or the setpoint channel for [SP]; the one error it
    raises is the [HandleException], and then the channel of the handle,
    if the handle is [RB] or [SP], is [None] or empty. *)
Theorem X12_get_value_reads_the_named_channel :
  ∀ (self : EpicsDevice.t) (handle : string) (st : State W),
    EpicsDevice_get_value self handle st
    = match EpicsDevice_get_pv_name self handle with
      | Ok pv =>
          ((cs_get pv (world st)).1,
           mkState (cs_get pv (world st)).2 (calls st ++ [CsGet pv])
             (stdout st))
      | Raise x => (Raise x, st)
      end
    ∧ (∀ pv, EpicsDevice_get_pv_name self handle = Ok pv →
             pv ≠ ""
             ∧ ((handle = RB ∧ EpicsDevice.rb_pv self = Some pv)
                ∨ (handle = SP ∧ EpicsDevice.sp_pv self = Some pv)))
    ∧ (∀ x, EpicsDevice_get_pv_name self handle = Raise x →
            x = mkExc HandleException
                  (no_pv_message (EpicsDevice.name self) handle)
            ∧ (handle = RB → truthy (EpicsDevice.rb_pv self) = false)
            ∧ (handle = SP → truthy (EpicsDevice.sp_pv self) = false)).
Proof.
  intros self handle st.
  unfold EpicsDevice_get_value, EpicsDevice_get_pv_name, call.
  destruct (String.eqb handle RB && truthy (EpicsDevice.rb_pv self))
    eqn:Crb.
  { apply andb_true_iff in Crb as [Hh Trb].
    apply String.eqb_eq in Hh. destruct (truthy_the _ Trb) as [Erb Nrb].
    split_and!.
    - by destruct (cs_get (the (EpicsDevice.rb_pv self)) (world st)).
    - intros pv [= <-]. split; [done|]. by left.
    - done. }
  destruct (String.eqb handle SP && truthy (EpicsDevice.sp_pv self))
    eqn:Csp.
  { apply andb_true_iff in Csp as [Hh Tsp].
    apply String.eqb_eq in Hh. destruct (truthy_the _ Tsp) as [Esp Nsp].
    split_and!.
    - by destruct (cs_get (the (EpicsDevice.sp_pv self)) (world st)).
    - intros pv [= <-]. split; [done|]. by right.
    - done. }
  split_and!.
  - reflexivity.
  - done.
  - intros x [= <-]. split_and!.
    + reflexivity.
    + intros ->. by rewrite String.eqb_refl in Crb.
    + intros ->. by rewrite String.eqb_refl in Csp.
Qed.

(** X13: when [RB] and [SP] differ and the setpoint channel of a device
    is a non-empty name, on a control system that answers a [get] on a
    channel with the value last [put] there, [set_value(v)] followed by
    [get_value(SP)] returns [v]; the two calls issued are the [put] and
    the [get] on the setpoint channel. *)
Theorem X13_set_value_then_get_setpoint :
  ∀ (self : EpicsDevice.t) (v : PyVal) (st : State W),
    RB ≠ SP →
    truthy (EpicsDevice.sp_pv self) = true →
    (∀ pv value w w',
       cs_put pv value w = (Ok tt, w') → cs_get pv w' = (Ok value, w')) →
    (∀ pv value w, (cs_put pv value w).1 = Ok tt) →
    let sp := the (EpicsDevice.sp_pv self) in
    bind (EpicsDevice_set_value self v)
      (λ _, EpicsDevice_get_value self SP) st
    = (Ok v,
       mkState (cs_put sp v (world st)).2 (calls st ++ [CsPut sp v; CsGet sp])
         (stdout st)).
Proof.
  intros self v st Hne Hsp Hlaw Hput sp. subst sp.
  unfold bind, EpicsDevice_set_value, EpicsDevice_get_value, call.
  destruct (EpicsDevice.sp_pv self) as [sp|] eqn:Esp; [|done].
  cbn [the default id].
  destruct (cs_put sp v (world st)) as [r w'] eqn:Hp.
  pose proof (Hput sp v (world st)) as Hr.
  rewrite Hp in Hr. cbn [fst] in Hr. subst r. cbn [world calls stdout snd].
  destruct (String.eqb_spec SP RB) as [Heq|_]; [by destruct Hne|].
  rewrite String.eqb_refl, Hsp. cbn [andb world calls stdout].
  rewrite (Hlaw _ _ _ _ Hp). by rewrite <- app_assoc.
Qed.

(** X14: [set_value] tests only whether the setpoint channel is [None]:
    without one it raises a [HandleException] before any call; with one
    it issues exactly one [put] on it, and this also when the channel is
    the empty name, which [get_value(SP)] and [get_pv_name(SP)] refuse:
    on such a device a value can be written whose channel cannot be read
    or named. *)
Theorem X14_set_value_writes_where_get_refuses :
  ∀ (self : EpicsDevice.t) (v : PyVal) (st : State W),
    (EpicsDevice.sp_pv self = None →
     EpicsDevice_set_value self v st
     = (raise_ HandleException
          ("Device " +:+ EpicsDevice.name self +:+ " has no setpoint PV."),
        st))
    ∧ (∀ sp, EpicsDevice.sp_pv self = Some sp →
         EpicsDevice_set_value self v st
         = ((cs_put sp v (world st)).1,
            mkState (cs_put sp v (world st)).2 (calls st ++ [CsPut sp v])
              (stdout st)))
    ∧ (EpicsDevice.sp_pv self = Some "" → RB ≠ SP →
       calls (EpicsDevice_set_value self v st).2 = calls st ++ [CsPut "" v]
       ∧ EpicsDevice_get_pv_name self SP
         = raise_ HandleException
             (no_pv_message (EpicsDevice.name self) SP)
       ∧ EpicsDevice_get_value self SP st
         = (raise_ HandleException
              (no_pv_message (EpicsDevice.name self) SP), st)).
Proof.
  intros self v st. unfold EpicsDevice_set_value, call. split_and!.
  - by intros ->.
  - intros sp ->. by destruct (cs_put sp v (world st)).
  - intros Hsp Hne. rewrite Hsp. split.
    + by destruct (cs_put "" v (world st)).
    + unfold EpicsDevice_get_pv_name, EpicsDevice_get_value.
      destruct (String.eqb_spec SP RB) as [Heq|_]; [by destruct Hne|].
      rewrite Hsp. simpl. by rewrite andb_false_r.
Qed.

End DeviceChannels.

Lemma X13_set_value_then_get_setpoint_witness :
  let d := Plain.device "BPM1" (Some "BPM1:X") (Some "BPM1:SX") in
  @RB Plain.constants ≠ @SP Plain.constants
  ∧ truthy (EpicsDevice.sp_pv d) = true
  ∧ bind (@EpicsDevice_set_value _ Plain.control_system d (PInt 7))
      (λ _, @EpicsDevice_get_value Plain.constants _ Plain.control_system
              d "setpoint")
      (Plain.state Plain.channels)
    = (Ok (PInt 7),
       mkState (<["BPM1:SX" := PInt 7]> Plain.channels)
         [CsPut "BPM1:SX" (PInt 7); CsGet "BPM1:SX"] []).
Proof.
  assert (Hne : @RB Plain.constants ≠ @SP Plain.constants) by discriminate.
  split; [exact Hne|]. split; [reflexivity|].
  apply (@X13_set_value_then_get_setpoint Plain.constants _
           Plain.control_system
           (Plain.device "BPM1" (Some "BPM1:X") (Some "BPM1:SX")) (PInt 7)
           (Plain.state Plain.channels) Hne eq_refl).
  - intros pv value w w' [= <-]. simpl. unfold Plain.read.
    by rewrite lookup_insert_eq.
  - reflexivity.
Defined.

(** ** [EpicsElement.get_pv_name], [EpicsLattice.get_pv_names],
    [EpicsLattice.set_values] *)

Section PvNames.
Context `{Constants} `{ObjectText}.

(** X15: an element resolves the channel name of a field and a handle
    exactly when its manager has a live data source, that data source has
    a device for the field, and the device names a channel for the
    handle; otherwise it raises a [DataSourceException], which names the
    field and the element and means that the live data source or the
    device is missing, or the [HandleException] of the device, and nothing
    else: never the [KeyError] of the lookups. *)
Theorem X15_element_pv_name_resolution :
  ∀ (self : Element.t) (field handle : string),
    let sources :=
      DataSourceManager._data_sources (Element._data_source_manager self) in
    (∀ pv, EpicsElement_get_pv_name self field handle = Ok pv
           ↔ ∃ live device,
               sources !! LIVE = Some live
               ∧ DeviceModel._devices live !! field = Some device
               ∧ EpicsDevice_get_pv_name device handle = Ok pv)
    ∧ (∀ x, EpicsElement_get_pv_name self field handle = Raise x →
            (x = mkExc DataSourceException
                   ("No data source for field " +:+ field +:+ " on element "
                    +:+ Element_text self +:+ ".")
             ∧ (sources !! LIVE = None
                ∨ ∃ live, sources !! LIVE = Some live
                          ∧ DeviceModel._devices live !! field = None))
            ∨ (exc_kind x = HandleException
               ∧ ∃ live device,
                   sources !! LIVE = Some live
                   ∧ DeviceModel._devices live !! field = Some device
                   ∧ EpicsDevice_get_pv_name device handle = Raise x)).
Proof.
  intros self field handle sources. subst sources.
  rewrite EpicsElement_get_pv_name_run.
  destruct (DataSourceManager._data_sources _ !! LIVE) as [live|] eqn:Hlive.
  - destruct (DeviceModel._devices live !! field) as [device|] eqn:Hdev.
    + split.
      * intros pv. split; [by exists live, device|].
        intros (live' & device' & [= <-] & Hd & Hpv).
        rewrite Hdev in Hd. by injection Hd as <-.
      * intros x Hx. right. split; [|by exists live, device].
        revert Hx. unfold EpicsDevice_get_pv_name.
        repeat case_match; try done; by intros [= <-].
    + split.
      * intros pv. split; [done|].
        intros (live' & device' & [= <-] & Hd & _). by rewrite Hdev in Hd.
      * intros x [= <-]. left. split; [done|]. right. by exists live.
  - split.
    + intros pv. split; [done|]. by intros (? & ? & ? & _).
    + intros x [= <-]. left. split; [done|]. by left.
Qed.

Lemma pv_names_loop_inv (field handle : string) (elements : list Element.t)
  (pv_names out : list string) :
  pv_names_loop field handle elements pv_names = Ok out →
  ∃ names,
    out = pv_names ++ names
    ∧ Forall2 (λ e n, EpicsElement_get_pv_name e field handle = Ok n)
        elements names.
Proof.
  revert pv_names. induction elements as [|e elements IH]; intros pv_names.
  - intros [= <-]. exists []. by rewrite app_nil_r.
  - unfold pv_names_loop. cbn [for_each_r].
    destruct (EpicsElement_get_pv_name e field handle) as [n|x] eqn:He;
      cbn [rbind]; [|done].
    intros Hrest. destruct (IH _ Hrest) as (names & -> & Hall).
    exists (n :: names). rewrite <- app_assoc. split; [done|].
    by constructor.
Qed.

Lemma pv_names_loop_raise (field handle : string) (elements : list Element.t)
  (pv_names : list string) (x : Exc) :
  pv_names_loop field handle elements pv_names = Raise x →
  ∃ e, e ∈ elements ∧ EpicsElement_get_pv_name e field handle = Raise x.
Proof.
  revert pv_names. induction elements as [|e elements IH]; intros pv_names.
  - done.
  - unfold pv_names_loop. cbn [for_each_r].
    destruct (EpicsElement_get_pv_name e field handle) as [n|x'] eqn:He;
      cbn [rbind].
    + intros Hrest. destruct (IH _ Hrest) as (e' & He' & Hx).
      exists e'. split; [by right|done].
    + intros [= <-]. exists e. split; [left|done].
Qed.

(** X16: [get_pv_names(F, field, handle)] returns a list of names exactly
    when the family has members and every member resolves a name, and the
    list is then these names, one per member in lattice order; an error it
    raises is the [ValueError] of [get_elements], for a family with no
    member, or the error one of the members raises. *)
Theorem X16_get_pv_names_one_per_member :
  ∀ (self : Lattice.t) (F field handle : string),
    let members := family_members self F in
    (∀ names,
       EpicsLattice_get_pv_names self (Some F) field handle = Ok names
       ↔ members ≠ []
         ∧ Forall2 (λ e n, EpicsElement_get_pv_name e field handle = Ok n)
             members names)
    ∧ (∀ names,
         EpicsLattice_get_pv_names self (Some F) field handle = Ok names →
         length names = length members)
    ∧ (∀ x,
         EpicsLattice_get_pv_names self (Some F) field handle = Raise x →
         (members = []
          ∧ x = mkExc ValueError ("No elements in family " +:+ F +:+ "."))
         ∨ ∃ e, e ∈ members
                ∧ EpicsElement_get_pv_name e field handle = Raise x).
Proof.
  intros self F field handle members. subst members.
  rewrite get_pv_names_run.
  assert (Hiff : ∀ names,
    family_members self F ≠ [] →
    pv_names_loop field handle (family_members self F) [] = Ok names
    ↔ Forall2 (λ e n, EpicsElement_get_pv_name e field handle = Ok n)
        (family_members self F) names).
  { intros names _. split.
    - intros Hl. by destruct (pv_names_loop_inv _ _ _ _ _ Hl) as (? & -> & ?).
    - intros Hall. by rewrite (pv_names_loop_all _ _ _ _ [] Hall). }
  split_and!.
  - intros names. case_bool_decide as Hf.
    + split; [done|]. by intros [? _].
    + rewrite (Hiff names Hf). intuition congruence.
  - intros names. case_bool_decide as Hf; [done|].
    intros Hl. apply (Hiff names Hf) in Hl. symmetry.
    by eapply Forall2_length.
  - intros x. case_bool_decide as Hf.
    + intros [= <-]. by left.
    + intros Hl. right. by eapply pv_names_loop_raise.
Qed.

End PvNames.

Section SetValues.
Context `{Constants} `{ObjectText} `{ControlSystem W}.

Lemma set_values_run (self : Lattice.t) (family : option string)
  (field : string) (values : list PyVal) (st : State W) :
  EpicsLattice_set_values self family field values st =
  match EpicsLattice_get_pv_names self family field "setpoint" with
  | Ok names =>
      if bool_decide (length names = length values) then
        ((cs_put_many names values (world st)).1,
         mkState (cs_put_many names values (world st)).2
           (calls st ++ [CsPutMany names values]) (stdout st))
      else (raise_ IndexError length_message, st)
  | Raise x => (Raise x, st)
  end.
Proof.
  unfold EpicsLattice_set_values, bind at 1, lift at 1.
  destruct (EpicsLattice_get_pv_names self family field "setpoint")
    as [names|x]; [|done].
  destruct (Nat.eqb_spec (length names) (length values)).
  - rewrite bool_decide_eq_true_2 by done. unfold call. simpl.
    by destruct (cs_put_many names values (world st)).
  - by rewrite bool_decide_eq_false_2.
Qed.

(** X17: [set_values(F, field, values)] resolves the channel names of the
    members for the handle ["setpoint"], whatever the constant [SP] is; an
    error of that resolution is raised before any call; values whose
    number is not the number of members raise an [IndexError] before any
    call; otherwise exactly one batched [put] of the values on the names
    is issued, the i-th value on the i-th member's name, and its result
    is the result.  So at most one call is ever issued, and it is a
    batched [put]. *)
Theorem X17_set_values_one_batched_put :
  ∀ (self : Lattice.t) (F field : string) (values : list PyVal)
    (st : State W),
    let members := family_members self F in
    let run := EpicsLattice_set_values self (Some F) field values st in
    (∀ x, EpicsLattice_get_pv_names self (Some F) field "setpoint" = Raise x →
          run = (Raise x, st))
    ∧ (∀ names,
         EpicsLattice_get_pv_names self (Some F) field "setpoint" = Ok names →
         Forall2 (λ e n, EpicsElement_get_pv_name e field "setpoint" = Ok n)
           members names
         ∧ (length values ≠ length members →
            run = (raise_ IndexError length_message, st))
         ∧ (length values = length members →
            run = ((cs_put_many names values (world st)).1,
                   mkState (cs_put_many names values (world st)).2
                     (calls st ++ [CsPutMany names values]) (stdout st))))
    ∧ (calls run.2 = calls st
       ∨ ∃ names, calls run.2 = calls st ++ [CsPutMany names values])
    ∧ stdout run.2 = stdout st.
Proof.
  intros self F field values st members run. subst members run.
  rewrite set_values_run.
  destruct (EpicsLattice_get_pv_names self (Some F) field "setpoint")
    as [names|x] eqn:Hn.
  - rewrite get_pv_names_run in Hn.
    case_bool_decide as Hf; [done|].
    destruct (pv_names_loop_inv _ _ _ _ _ Hn) as (names' & Heq & Hall).
    rewrite app_nil_l in Heq. subst names'.
    pose proof (Forall2_length _ _ _ Hall) as Hlen.
    split_and!.
    + done.
    + intros ? [= <-]. split_and!.
      * done.
      * intros Hne. by rewrite bool_decide_eq_false_2 by lia.
      * intros Heq. by rewrite bool_decide_eq_true_2 by lia.
    + case_bool_decide; [right; by exists names|by left].
    + by case_bool_decide.
  - split_and!.
    + by intros ? [= <-].
    + done.
    + by left.
    + done.
Qed.

End SetValues.

Example set_values_runs :
  let run :=
    @EpicsLattice_set_values Plain.constants Plain.object_text _
      Plain.control_system Plain.ring_x (Some "BPM") "x" [PInt 4; PInt 6]
      (Plain.state Plain.channels) in
  run.1 = Ok tt
  ∧ calls run.2 = [CsPutMany ["BPM1:SX"; "BPM3:SX"] [PInt 4; PInt 6]]
  ∧ world run.2 !! "BPM1:SX" = Some (PInt 4)
  ∧ world run.2 !! "BPM3:SX" = Some (PInt 6)
  ∧ world run.2 !! "BPM1:X" = Some (PInt 1).
Proof. split_and!; vm_compute; reflexivity. Qed.

(** ** [Lattice.add_device], [Lattice.get_device], [Lattice.get_unitconv] *)

Section DeviceWrappers.
Context `{ManagerDeviceOps} `{ObjectText}.

(** X18: [get_device], [get_unitconv] and [add_device] of the lattice
    return what the manager returns and raise exactly when it raises, an
    error of the same class: a [DataSourceException] of [get_device] or
    [add_device] and a [FieldException] of [get_unitconv] get the
    lattice's own description, every other error is passed on as it is
    (so a [FieldException] of [get_device] is not re-described).  After
    [add_device] the lattice holds the manager as the manager's
    [add_device] left it, also when that raised, and its name and elements
    are as before. *)
Theorem X18_lattice_device_errors_redescribed :
  ∀ (self : Lattice.t) (field : string) (device : EpicsDevice.t)
    (uc : UnitConv),
    let manager := Lattice._data_source_manager self in
    (* get_device *)
    (∀ d, DataSourceManager_get_device manager field = Ok d →
          Lattice_get_device self field = Ok d)
    ∧ (∀ x, DataSourceManager_get_device manager field = Raise x →
            Lattice_get_device self field
            = Raise (if decide (exc_kind x = DataSourceException)
                     then mkExc DataSourceException (no_device_source self)
                     else x))
    (* get_unitconv *)
    ∧ (∀ c, DataSourceManager_get_unitconv manager field = Ok c →
            Lattice_get_unitconv self field = Ok c)
    ∧ (∀ x, DataSourceManager_get_unitconv manager field = Raise x →
            Lattice_get_unitconv self field
            = Raise (if decide (exc_kind x = FieldException)
                     then mkExc FieldException
                            ("No unit conversion option for field " +:+ field
                             +:+ " on lattice " +:+ Lattice_text self +:+ ".")
                     else x))
    (* add_device *)
    ∧ (Lattice_add_device self field device uc).2
      = Lattice.mk (Lattice.name self) (Lattice._lattice self)
          (DataSourceManager_add_device manager field device uc).2
    ∧ ((DataSourceManager_add_device manager field device uc).1 = Ok tt →
       (Lattice_add_device self field device uc).1 = Ok tt)
    ∧ (∀ x, (DataSourceManager_add_device manager field device uc).1
            = Raise x →
            (Lattice_add_device self field device uc).1
            = Raise (if decide (exc_kind x = DataSourceException)
                     then mkExc DataSourceException (no_device_source self)
                     else x))
    (* the class of an error is kept *)
    ∧ (∀ x, exc_kind (if decide (exc_kind x = DataSourceException)
                      then mkExc DataSourceException (no_device_source self)
                      else x) = exc_kind x).
Proof.
  intros self field device uc manager. subst manager.
  unfold Lattice_get_device, Lattice_get_unitconv, Lattice_add_device,
    try_except.
  split_and!.
  - by intros d ->.
  - intros x ->. case_decide as Hk; [by rewrite Hk|].
    by destruct (exc_kind x).
  - by intros c ->.
  - intros x ->. case_decide as Hk; [by rewrite Hk|].
    by destruct (exc_kind x).
  - by destruct (DataSourceManager_add_device _ field device uc).
  - destruct (DataSourceManager_add_device _ field device uc) as [r m].
    simpl. by intros ->.
  - intros x.
    destruct (DataSourceManager_add_device _ field device uc) as [r m].
    simpl. intros ->. case_decide as Hk; [by rewrite Hk|].
    by destruct (exc_kind x).
  - intros x. by case_decide.
Qed.

End DeviceWrappers.

(** ** How the two defaults compose *)

(** [get_elements], by the elements that the family and the cell select. *)
Lemma get_elements_selects (self : Lattice.t) (family : option string)
  (cell : option Z) :
  Lattice_get_elements self family cell =
  if bool_decide (filter (λ e, selects family None e)
                    (Lattice._lattice self) = []) then
    raise_ ValueError ("No elements in family " +:+ format_str family +:+ ".")
  else if bool_decide (filter (λ e, selects family cell e)
                         (Lattice._lattice self) = []) then
    raise_ ValueError ("No elements in cell " +:+ format_int cell +:+ ".")
  else Ok (filter (λ e, selects family cell e) (Lattice._lattice self)).
Proof.
  rewrite !selects_filter. destruct family as [F|].
  - rewrite get_elements_family. case_bool_decide as Hf; [done|].
    destruct cell as [C|]; [done|]. by case_bool_decide.
  - rewrite get_elements_no_family. case_bool_decide as Hl; [done|].
    destruct cell as [C|]; [done|]. by case_bool_decide.
Qed.

(** A change of the elements that keeps their families and cells does not
    change what [get_elements] selects. *)
Lemma get_elements_map (f : Element.t → Element.t) (self : Lattice.t)
  (manager : DataSourceManager.t) (family : option string) (cell : option Z) :
  (∀ e, Element.families (f e) = Element.families e
        ∧ Element.cell (f e) = Element.cell e) →
  Lattice_get_elements
    (Lattice.mk (Lattice.name self) (map f (Lattice._lattice self)) manager)
    family cell
  = match Lattice_get_elements self family cell with
    | Ok elements => Ok (map f elements)
    | Raise x => Raise x
    end.
Proof.
  intros Hf. rewrite !get_elements_selects. simpl.
  assert (Hfilter : ∀ c l,
            filter (λ e, selects family c e) (map f l)
            = map f (filter (λ e, selects family c e) l)).
  { intros c l. induction l as [|e l IH]; [done|]. simpl.
    rewrite !filter_cons, IH.
    assert (selects family c (f e) = selects family c e) as ->.
    { unfold selects. destruct (Hf e) as [-> ->]. done. }
    by destruct (decide (selects family c e)). }
  rewrite !Hfilter.
  assert (Hnil : ∀ l : list Element.t,
            bool_decide (map f l = []) = bool_decide (l = [])).
  { intros l. by destruct l. }
  rewrite !Hnil. by repeat case_bool_decide.
Qed.

Section DefaultsCompose.
Context `{Constants}.

Lemma set_default_units_run (self : Lattice.t) (u : string) :
  Lattice._lattice self ≠ [] →
  u = ENG ∨ u = PHYS →
  Lattice_set_default_units self (Some u)
  = (Ok tt,
     Lattice.mk (Lattice.name self)
       (map (Element_assign_default_units u) (Lattice._lattice self))
       (DataSourceManager.mk
          (DataSourceManager._data_sources (Lattice._data_source_manager self))
          u
          (DataSourceManager.default_data_source
             (Lattice._data_source_manager self)))).
Proof.
  intros Hne Hu. unfold Lattice_set_default_units.
  assert (bool_decide (Some u = Some ENG) || bool_decide (Some u = Some PHYS)
          = true) as ->.
  { destruct Hu as [-> | ->].
    - by rewrite bool_decide_eq_true_2.
    - rewrite (bool_decide_eq_true_2 (Some PHYS = Some PHYS)) by done.
      apply orb_true_r. }
  cbv zeta. by rewrite get_elements_all_nonempty.
Qed.

Lemma set_default_data_source_run (self : Lattice.t) (d : string) :
  Lattice._lattice self ≠ [] →
  d = LIVE ∨ d = SIM →
  Lattice_set_default_data_source self (Some d)
  = (Ok tt,
     Lattice.mk (Lattice.name self)
       (map (Element_assign_default_data_source d) (Lattice._lattice self))
       (DataSourceManager.mk
          (DataSourceManager._data_sources (Lattice._data_source_manager self))
          (DataSourceManager.default_units (Lattice._data_source_manager self))
          d)).
Proof.
  intros Hne Hd. unfold Lattice_set_default_data_source.
  assert (bool_decide (Some d = Some LIVE) || bool_decide (Some d = Some SIM)
          = true) as ->.
  { destruct Hd as [-> | ->].
    - by rewrite bool_decide_eq_true_2.
    - rewrite (bool_decide_eq_true_2 (Some SIM = Some SIM)) by done.
      apply orb_true_r. }
  cbv zeta. by rewrite get_elements_all_nonempty.
Qed.

(** X19: on a lattice that has at least one element, with a valid unit
    type and a valid data source: setting the two defaults in either
    order gives the same lattice; setting the default units again changes
    nothing, and a later setting overrides an earlier one; and the
    elements [get_elements] selects, for any family and cell, are the same
    as before with the new default, in the same order, and it raises the
    same errors. *)
Theorem X19_defaults_compose :
  ∀ (self : Lattice.t) (u d : string),
    Lattice._lattice self ≠ [] →
    u = ENG ∨ u = PHYS →
    d = LIVE ∨ d = SIM →
    ∃ su sd sboth,
      Lattice_set_default_units self (Some u) = (Ok tt, su)
      ∧ Lattice_set_default_data_source self (Some d) = (Ok tt, sd)
      ∧ Lattice_set_default_data_source su (Some d) = (Ok tt, sboth)
      ∧ Lattice_set_default_units sd (Some u) = (Ok tt, sboth)
      ∧ Lattice_set_default_units su (Some u) = (Ok tt, su)
      ∧ (∀ u', u' = ENG ∨ u' = PHYS →
           Lattice_set_default_units su (Some u')
           = Lattice_set_default_units self (Some u'))
      ∧ (∀ family cell,
           Lattice_get_elements su family cell
           = match Lattice_get_elements self family cell with
             | Ok elements =>
                 Ok (map (Element_assign_default_units u) elements)
             | Raise x => Raise x
             end).
Proof.
  intros self u d Hne Hu Hd.
  assert (Hmap : ∀ (f : Element.t → Element.t),
            map f (Lattice._lattice self) ≠ []).
  { intros f. by destruct (Lattice._lattice self). }
  eexists _, _, _. split_and!.
  - by apply set_default_units_run.
  - by apply set_default_data_source_run.
  - rewrite set_default_data_source_run; [|apply Hmap|done]. simpl.
    by rewrite map_map.
  - rewrite set_default_units_run; [|apply Hmap|done]. simpl.
    by rewrite map_map.
  - rewrite set_default_units_run; [|apply Hmap|done]. simpl.
    by rewrite map_map.
  - intros u' Hu'. rewrite !set_default_units_run; try done; [|apply Hmap].
    simpl. by rewrite map_map.
  - intros family cell. by apply get_elements_map.
Qed.

End DefaultsCompose.

Lemma X19_defaults_compose_witness :
  Lattice._lattice Plain.ring ≠ []
  ∧ ∃ su sboth,
      @Lattice_set_default_units Plain.constants Plain.ring (Some "physics")
      = (Ok tt, su)
      ∧ @Lattice_set_default_data_source Plain.constants su
          (Some "simulation") = (Ok tt, sboth)
      ∧ Lattice_get_default_units sboth = "physics"
      ∧ Lattice_get_default_data_source sboth = "simulation"
      ∧ length (Lattice._lattice sboth) = 4%nat.
Proof.
  assert (Hne : Lattice._lattice Plain.ring ≠ []) by discriminate.
  split; [exact Hne|].
  destruct (@X19_defaults_compose Plain.constants Plain.ring
              "physics" "simulation" Hne (or_intror eq_refl)
              (or_intror eq_refl))
    as (su & sd & sboth & Hu & Hd & Hud & Hdu & _).
  exists su, sboth. split; [exact Hu|]. split; [exact Hud|].
  vm_compute in Hu. injection Hu as <-.
  vm_compute in Hud. injection Hud as <-.
  split_and!; reflexivity.
Defined.

(** ** [EpicsDevice.is_enabled] *)

Section IsEnabled.
Context `{Interpreter} `{ControlSystem W}.


End IsEnabled.

(** ** [Lattice.get_element_devices], when a lookup fails otherwise *)

Lemma for_each_app {W S X} (l1 l2 : list X) (body : S → X → M W S)
  (acc : S) (st : State W) :
  for_each (l1 ++ l2) body acc st =
  match for_each l1 body acc st with
  | (Ok acc', st') => for_each l2 body acc' st'
  | (Raise x, st') => (Raise x, st')
  end.
Proof.
  revert acc st. induction l1 as [|y l1 IH]; intros acc st; [done|].
  cbn [app for_each]. unfold bind.
  destruct (body acc y st) as [[acc'|x] st']; [apply IH|done].
Qed.

Section ElementDevicesHard.
Context `{ElementOps W} `{ObjectText}.

(** X21: [get_element_devices] catches only the [DataSourceException] of a
    lookup.  When the lookup of a member raises an error of another class,
    and the members before it either have a device or fail with a
    [DataSourceException], the call raises that error: the members after
    it are not looked at, and the lines printed for the members before it
    stay printed. *)
Theorem X21_get_element_devices_other_errors_abort :
  ∀ (self : Lattice.t) (F field : string) (st : State W)
    (before after : list Element.t) (e : Element.t) (x : Exc),
    family_members self F = before ++ e :: after →
    (∀ e' x', e' ∈ before → Element_get_device e' field = Raise x' →
              exc_kind x' = DataSourceException) →
    Element_get_device e field = Raise x →
    exc_kind x ≠ DataSourceException →
    Lattice_get_element_devices self (Some F) field st
    = (Raise x,
       mkState (world st) (calls st)
         (stdout st ++ map (diagnostic field) (lacking field before))).
Proof.
  intros self F field st before after e x Hmem Hsoft He Hkind.
  unfold Lattice_get_element_devices, bind at 1, lift at 1.
  rewrite get_elements_family, Hmem.
  rewrite bool_decide_eq_false_2 by (by destruct before).
  rewrite for_each_app, get_element_devices_loop by done.
  cbn [for_each]. unfold bind at 1, try_exceptM at 1, bind at 1, lift at 1.
  rewrite He. by destruct (exc_kind x).
Qed.

End ElementDevicesHard.

Lemma X21_get_element_devices_other_errors_abort_witness :
  family_members Plain.ring_0 "BPM"
  = [Plain.bpm0; Plain.bpm1] ++ Plain.bpm2 :: [Plain.bpm3]
  ∧ @Lattice_get_element_devices _ Plain.field_elements Plain.object_text
      Plain.ring_0 (Some "BPM") "x" (Plain.state ∅)
    = (raise_ FieldException "No field x.",
       mkState ∅ [] ["No device for field x on element <Element BPM0>."]).
Proof.
  assert (Hmem : family_members Plain.ring_0 "BPM"
                 = [Plain.bpm0; Plain.bpm1] ++ Plain.bpm2 :: [Plain.bpm3])
    by (vm_compute; reflexivity).
  split; [exact Hmem|].
  rewrite (@X21_get_element_devices_other_errors_abort _ Plain.field_elements
             Plain.object_text Plain.ring_0 "BPM" "x" (Plain.state ∅)
             [Plain.bpm0; Plain.bpm1] [Plain.bpm3] Plain.bpm2
             (mkExc FieldException "No field x.") Hmem).
  - vm_compute. reflexivity.
  - intros e' x' He' Hx'.
    apply elem_of_cons in He' as [->|He'];
      [|apply elem_of_cons in He' as [->|He']; [|by apply elem_of_nil in He']].
    + vm_compute in Hx'. by injection Hx' as <-.
    + vm_compute in Hx'. discriminate Hx'.
  - vm_compute. reflexivity.
  - discriminate.
Defined.
